(** * SMS messenger: message store, gateways and lifecycle engine

    A shallow embedding of [sms.py]: the two gateway classes, the SQLite
    backed [SMSDatabase] (tables [messages] and [logs]) and the
    [SMSMessenger] engine, followed by the properties of the message
    lifecycle that the specification states.

    Conventions of the embedding.
    - Python values that travel through the engine untyped (the decoded
      JSON payload of a gateway, the [gateway_message_id] argument) are of
      type [json]; [JNull] is Python's [None].
    - A call that may raise returns an [outcome]; every exception of the
      model derives from Python's [Exception], so [except Exception]
      catches all of them.
    - A Python [str] is the string of its UTF-8 bytes.  A [str] decoded
      from a reply may hold lone surrogates, which have no UTF-8 encoding;
      it is the string of the bytes that the error handler [surrogatepass]
      gives, and [encodable] tells the two apart.  The strings a caller
      passes (recipient, text, status, names) are encodable.
    - A timestamp is an integer ([Z]) that stands for the text SQLite
      keeps; the order of the integers is the order in which the query of
      [get_pending_messages] compares those texts.  One engine call reads
      the clock once ([now]).
    - The HTTP backend is an oracle [net]: the k-th request made by the
      process receives [net k].  The requests made so far are kept in the
      field [wire] of the engine state.
    - Calls to [self.logger] write to the process log only and are left
      out. *)

From Stdlib Require Import ZArith String List DecimalString Sorted Lia.
From Stdlib Require PrimFloat.
From stdpp Require Import base option list gmap strings.

Local Open Scope Z_scope.
Local Set Warnings "-register-all".

(** ** Python values and exceptions *)

(** A decoded JSON document, as [json.loads] gives it: [None], [bool],
    [int], [float] ([NaN] and the infinities included), [str], [list] and
    [dict], the fields of a dict listed with distinct keys.  A float comes
    with the text that SQLite's conversion of a REAL to TEXT gives it; the
    conversion itself is not part of the model. *)
Inductive json : Type :=
| JNull
| JBool (b : bool)
| JNum (n : Z)
| JFloat (x : PrimFloat.float) (as_text : string)
| JStr (s : string)
| JArr (items : list json)
| JObj (fields : list (string * json)).

(** Python truth value: [None], [False], [0], [0.0], [''], [[]] and [{}]
    are false; [NaN], which equals no number, is true. *)
Definition truthy (v : json) : bool :=
  match v with
  | JNull => false
  | JBool b => b
  | JNum n => negb (n =? 0)
  | JFloat x _ => negb (PrimFloat.eqb x PrimFloat.zero)
  | JStr s => negb (String.eqb s "")
  | JArr items => match items with [] => false | _ :: _ => true end
  | JObj fields => match fields with [] => false | _ :: _ => true end
  end.

(** Truth value of an [Optional[str]] attribute such as [sender_id]. *)
Definition truthy_opt (o : option string) : bool :=
  match o with
  | None => false
  | Some s => negb (String.eqb s "")
  end.

Inductive exn : Type :=
| NotImplementedError (msg : string)
| ValueError (msg : string)
| Exception (msg : string)
| RequestException (msg : string)
| JSONDecodeError (doc : string)
| AttributeError (msg : string)
| KeyError (key : string)
| TypeError (msg : string)
| ProgrammingError (msg : string)
| UnicodeEncodeError (object : string)
| OverflowError (msg : string).

Inductive outcome (A : Type) : Type :=
| Return (a : A)
| Raise (e : exn).
Arguments Return {A} a.
Arguments Raise {A} e.

#[global] Instance outcome_ret : MRet outcome := fun A a => Return a.
#[global] Instance outcome_bind : MBind outcome := fun A B k c =>
  match c with
  | Return a => k a
  | Raise e => Raise e
  end.

(** First binding of [key] in the fields of an object. *)
Fixpoint assoc (key : string) (fields : list (string * json)) : option json :=
  match fields with
  | [] => None
  | (k, v) :: rest => if String.eqb k key then Some v else assoc key rest
  end.

(** [type(v).__name__] *)
Definition type_name (v : json) : string :=
  match v with
  | JNull => "NoneType"
  | JBool _ => "bool"
  | JNum _ => "int"
  | JFloat _ _ => "float"
  | JStr _ => "str"
  | JArr _ => "list"
  | JObj _ => "dict"
  end.

(** [d.get(key)]: only a dict has the method. *)
Definition dict_get (d : json) (key : string) : outcome json :=
  match d with
  | JObj fields => Return (default JNull (assoc key fields))
  | _ => Raise (AttributeError
                  ("'" +:+ type_name d +:+ "' object has no attribute 'get'"))
  end.

(** [d[key]] with a [str] key: a dict looks the key up, a list and a
    [str] refuse the index, no other value can be subscripted. *)
Definition dict_item (d : json) (key : string) : outcome json :=
  match d with
  | JObj fields =>
      match assoc key fields with
      | Some v => Return v
      | None => Raise (KeyError key)
      end
  | JArr _ =>
      Raise (TypeError "list indices must be integers or slices, not str")
  | JStr _ => Raise (TypeError "string indices must be integers, not 'str'")
  | _ => Raise (TypeError
                  ("'" +:+ type_name d +:+ "' object is not subscriptable"))
  end.

(** ** HTTP *)

Inductive http_method : Type := GET | POST.

Inductive request_body : Type :=
| NoBody
| FormData (data : list (string * string))
| JsonData (data : list (string * string)).

Record request : Type := {
  method : http_method;
  url : string;
  body : request_body;
  auth : string * string
}.

(** A response as the gateways read it: [response.status_code],
    [response.text], and the value of [response.json()], [None] when the
    body does not decode. *)
Record response : Type := {
  status_code : Z;
  text : string;
  decoded : option json
}.

Inductive http_outcome : Type :=
| Unreachable (msg : string)
| Reply (r : response).

Definition response_json (r : response) : outcome json :=
  match decoded r with
  | Some v => Return v
  | None => Raise (JSONDecodeError (text r))
  end.

(** ** Message store

    The tables [messages] and [logs] of [SMSDatabase], rows in rowid order.
    Both keys are [INTEGER PRIMARY KEY AUTOINCREMENT]: a new row gets the
    largest key ever used plus one, kept in [messages_seq] and [logs_seq]
    (SQLite's [sqlite_sequence]).  The [contacts] table is the directory's
    and is not part of the engine. *)

Record Message : Type := {
  row_id : Z;
  contact_id : option Z;
  recipient : string;
  message : string;
  status : string;
  gateway : string;
  message_id : option string;
  scheduled_at : option Z;
  sent_at : option Z;
  created_at : Z
}.

(** The [details] column of a log row holds either [json.dumps(result)] or
    [str(e)]; both renderings are kept symbolic. *)
Inductive detail : Type :=
| json_dumps (result : json)
| str (e : exn).

Record LogEntry : Type := {
  log_id : Z;
  log_message_id : Z;
  log_status : string;
  log_details : detail;
  log_created_at : Z
}.

Record SMSDatabase : Type := {
  messages : list Message;
  logs : list LogEntry;
  messages_seq : Z;
  logs_seq : Z
}.

(** The database right after [_create_tables] on a fresh file. *)
Definition empty_db : SMSDatabase :=
  {| messages := []; logs := []; messages_seq := 0; logs_seq := 0 |}.

Definition log_message (d : SMSDatabase) (recipient message gateway : string)
    (status : string) (scheduled_at : option Z) (contact_id : option Z)
    (now : Z) : Z * SMSDatabase :=
  let lastrowid := messages_seq d + 1 in
  (lastrowid,
   {| messages := messages d ++
        [{| row_id := lastrowid; contact_id := contact_id;
            recipient := recipient; message := message; status := status;
            gateway := gateway; message_id := None;
            scheduled_at := scheduled_at; sent_at := None;
            created_at := now |}];
      logs := logs d;
      messages_seq := lastrowid;
      logs_seq := logs_seq d |}).

(** [UPDATE messages SET ... WHERE id = ?]: [set] is applied to every row
    whose key is [key]. *)
Definition update_where_id (key : Z) (set : Message -> Message)
    (rows : list Message) : list Message :=
  map (fun m => if row_id m =? key then set m else m) rows.

Definition set_status (status : string) (m : Message) : Message :=
  {| row_id := row_id m; contact_id := contact_id m;
     recipient := recipient m; message := message m; status := status;
     gateway := gateway m; message_id := message_id m;
     scheduled_at := scheduled_at m; sent_at := sent_at m;
     created_at := created_at m |}.

Definition set_sent (status : string) (gateway_message_id : option string)
    (now : Z) (m : Message) : Message :=
  {| row_id := row_id m; contact_id := contact_id m;
     recipient := recipient m; message := message m; status := status;
     gateway := gateway m; message_id := gateway_message_id;
     scheduled_at := scheduled_at m; sent_at := Some now;
     created_at := created_at m |}.

Definition with_messages (d : SMSDatabase) (rows : list Message)
  : SMSDatabase :=
  {| messages := rows; logs := logs d;
     messages_seq := messages_seq d; logs_seq := logs_seq d |}.

Definition decimal (n : Z) : string := NilZero.string_of_int (Z.to_int n).

(** Whether the bytes hold no lone surrogate: in UTF-8 the byte [ED] is
    followed by a byte below [A0]; [surrogatepass] writes a surrogate as
    [ED] and a byte from [A0] on. *)
Fixpoint encodable (s : string) : bool :=
  match s with
  | EmptyString => true
  | String c rest =>
      match rest with
      | EmptyString => true
      | String c' _ =>
          if ((Ascii.N_of_ascii c =? 237) && (160 <=? Ascii.N_of_ascii c'))%N
          then false else encodable rest
      end
  end.

(** Binding a Python value to the second [?] of the [UPDATE] and storing
    it in the [TEXT] column [message_id]: [sqlite3] binds [None], [int]
    ([bool] included), [float] and [str].  An [int] outside 64 bits, a
    [str] that does not encode and a value of any other type make
    [execute] raise before the statement runs.  [NaN] is stored as NULL;
    the column's [TEXT] affinity stores any other number as its text. *)
Definition bind_text (v : json) : outcome (option string) :=
  match v with
  | JNull => Return None
  | JBool b => Return (Some (if b then "1" else "0")%string)
  | JNum n =>
      if (- 2 ^ 63 <=? n) && (n <? 2 ^ 63) then Return (Some (decimal n))
      else Raise (OverflowError
                    "Python int too large to convert to SQLite INTEGER")
  | JFloat x as_text =>
      if PrimFloat.is_nan x then Return None else Return (Some as_text)
  | JStr s =>
      if encodable s then Return (Some s) else Raise (UnicodeEncodeError s)
  | JArr _ | JObj _ =>
      Raise (ProgrammingError
               ("Error binding parameter 2: type '" +:+ type_name v
                  +:+ "' is not supported"))
  end.

(** [update_message_status].  The key [message_id] is taken within 64
    bits, as every key of a row is: [sqlite3] binds no other [int]. *)
Definition update_message_status (d : SMSDatabase) (message_id : Z)
    (status : string) (gateway_message_id : json) (now : Z)
  : outcome SMSDatabase :=
  if truthy gateway_message_id then
    bound ← bind_text gateway_message_id;
    mret (with_messages d
            (update_where_id message_id (set_sent status bound now)
               (messages d)))
  else
    mret (with_messages d
            (update_where_id message_id (set_status status) (messages d))).

Definition add_log_entry (d : SMSDatabase) (message_id : Z)
    (status : string) (details : detail) (now : Z) : SMSDatabase :=
  let lastrowid := logs_seq d + 1 in
  {| messages := messages d;
     logs := logs d ++
       [{| log_id := lastrowid; log_message_id := message_id;
           log_status := status; log_details := details;
           log_created_at := now |}];
     messages_seq := messages_seq d;
     logs_seq := lastrowid |}.

(** The [WHERE] clause of [get_pending_messages]; [<=?] on the integers
    stands for SQLite's comparison of the stored text of [scheduled_at]
    with the text of [datetime('now')]. *)
Definition is_pending (now : Z) (m : Message) : bool :=
  String.eqb (status m) "pending"
  && match scheduled_at m with
     | None => true
     | Some t => t <=? now
     end.

Definition get_pending_messages (d : SMSDatabase) (now : Z) : list Message :=
  List.filter (is_pending now) (messages d).

(** ** Contact directory

    The table [contacts] of the same database: [id INTEGER PRIMARY KEY
    AUTOINCREMENT], [phone TEXT NOT NULL UNIQUE].  [SMSMessenger.add_contact]
    and [SMSMessenger.get_contacts] hand their arguments to the two methods
    below; neither reads or writes [messages] or [logs]. *)

Record Contact : Type := {
  contact_row_id : Z;
  contact_name : string;
  contact_phone : string;
  contact_email : option string;
  contact_group_name : option string;
  contact_created_at : Z
}.

Record ContactsTable : Type := {
  contacts : list Contact;
  contacts_seq : Z
}.

Definition no_contacts : ContactsTable :=
  {| contacts := []; contacts_seq := 0 |}.

(** The [UNIQUE] index on [phone]. *)
Definition phone_taken (phone : string) (rows : list Contact) : bool :=
  existsb (fun c => String.eqb (contact_phone c) phone) rows.

(** [add_contact]: the [INSERT] fails with [sqlite3.IntegrityError] when
    the phone is taken, which the method turns into a [ValueError]; no row
    is written then.  SQLite leaves open whether the key picked for a
    failed insert is used again; [key_reused] says which. *)
Definition add_contact (t : ContactsTable) (name phone : string)
    (email group : option string) (now : Z) (key_reused : bool)
  : outcome Z * ContactsTable :=
  if phone_taken phone (contacts t) then
    (Raise (ValueError ("Contact with phone " +:+ phone +:+ " already exists")),
     {| contacts := contacts t;
        contacts_seq := if key_reused then contacts_seq t
                        else contacts_seq t + 1 |})
  else
    let lastrowid := contacts_seq t + 1 in
    (Return lastrowid,
     {| contacts := contacts t ++
          [{| contact_row_id := lastrowid; contact_name := name;
              contact_phone := phone; contact_email := email;
              contact_group_name := group; contact_created_at := now |}];
        contacts_seq := lastrowid |}).

(** [WHERE group_name = ?] *)
Definition in_group (g : string) (c : Contact) : bool :=
  match contact_group_name c with
  | Some g' => String.eqb g' g
  | None => false
  end.

(** [get_contacts]: the filter applies when [group] is a true value. *)
Definition get_contacts (t : ContactsTable) (group : option string)
  : list Contact :=
  match group with
  | Some g => if truthy_opt group then List.filter (in_group g) (contacts t)
              else contacts t
  | None => contacts t
  end.

(** The arguments of one [add_contact] call. *)
Record contact_call : Type := {
  call_name : string;
  call_phone : string;
  call_email : option string;
  call_group : option string;
  call_now : Z;
  call_key_reused : bool
}.

Definition add_contacts (t : ContactsTable) (calls : list contact_call)
  : ContactsTable :=
  foldl (fun t c =>
           (add_contact t (call_name c) (call_phone c) (call_email c)
              (call_group c) (call_now c) (call_key_reused c)).2)
    t calls.

(** ** Gateways *)

Inductive SMSGateway : Type :=
| BaseGateway (api_key : string) (sender_id : option string)
| TwilioGateway (account_sid auth_token : string) (sender_id : option string)
| PlivoGateway (auth_id auth_token : string) (sender_id : option string).

Definition TWILIO_BASE_URL : string := "https://api.twilio.com/2010-04-01".

Definition plivo_base_url (account_id : string) : string :=
  "https://api.plivo.com/v1/Account/" +:+ account_id.

(** [self.sender_id if self.sender_id else fallback] *)
Definition sender_or (sender_id : option string) (fallback : string) : string :=
  match sender_id with
  | Some s => if truthy_opt sender_id then s else fallback
  | None => fallback
  end.

Definition not_implemented : exn :=
  NotImplementedError "Subclasses must implement this method".

Section Backend.

Set Default Proof Using "Type".

(** The backend: the reply to the k-th request of the process. *)
Variable net : nat -> http_outcome.

(** Python's [float] type and the builtin [float(x)]. *)
Variable pyfloat : Type.
Variable to_float : json -> outcome pyfloat.

Definition http (rq : request) (wire : list request)
  : http_outcome * list request :=
  (net (length wire), wire ++ [rq]).

(** What a gateway method does with the reply: the decoded body under the
    expected status code, an [Exception] carrying the body otherwise. *)
Definition expect (code : Z) (vendor : string) (o : http_outcome)
  : outcome json :=
  match o with
  | Unreachable msg => Raise (RequestException msg)
  | Reply r =>
      if status_code r =? code then response_json r
      else Raise (Exception (vendor +:+ " API error: " +:+ text r))
  end.

Definition send_sms (g : SMSGateway) (recipient message : string)
    (wire : list request) : outcome json * list request :=
  match g with
  | BaseGateway _ _ => (Raise not_implemented, wire)
  | TwilioGateway account_sid api_key sender_id =>
      let rq := {| method := POST;
                   url := TWILIO_BASE_URL +:+ "/Accounts/" +:+ account_sid
                            +:+ "/Messages.json";
                   body := FormData
                             [("To", recipient); ("Body", message);
                              ("From", sender_or sender_id account_sid)];
                   auth := (account_sid, api_key) |} in
      let '(o, wire') := http rq wire in
      (expect 201 "Twilio" o, wire')
  | PlivoGateway auth_id api_key sender_id =>
      let rq := {| method := POST;
                   url := plivo_base_url auth_id +:+ "/Message/";
                   body := JsonData
                             [("src", sender_or sender_id auth_id);
                              ("dst", recipient); ("text", message)];
                   auth := (auth_id, api_key) |} in
      let '(o, wire') := http rq wire in
      (expect 202 "Plivo" o, wire')
  end.

(** [float(data[key])] on the decoded body;  the conversion itself is the
    builtin [to_float]. *)
Definition balance_field (key : string) (data : outcome json)
  : outcome pyfloat :=
  data ≫= fun d => dict_item d key ≫= to_float.

Definition get_balance (g : SMSGateway) (wire : list request)
  : outcome pyfloat * list request :=
  match g with
  | BaseGateway _ _ => (Raise not_implemented, wire)
  | TwilioGateway account_sid api_key _ =>
      let rq := {| method := GET;
                   url := TWILIO_BASE_URL +:+ "/Accounts/" +:+ account_sid
                            +:+ "/Balance.json";
                   body := NoBody;
                   auth := (account_sid, api_key) |} in
      let '(o, wire') := http rq wire in
      (balance_field "balance" (expect 200 "Twilio" o), wire')
  | PlivoGateway auth_id api_key _ =>
      let rq := {| method := GET;
                   url := plivo_base_url auth_id +:+ "/";
                   body := NoBody;
                   auth := (auth_id, api_key) |} in
      let '(o, wire') := http rq wire in
      (balance_field "cash_credits" (expect 200 "Plivo" o), wire')
  end.

Definition get_delivery_status (g : SMSGateway) (message_id : string)
    (wire : list request) : outcome json * list request :=
  match g with
  | BaseGateway _ _ => (Raise not_implemented, wire)
  | TwilioGateway account_sid api_key _ =>
      let rq := {| method := GET;
                   url := TWILIO_BASE_URL +:+ "/Accounts/" +:+ account_sid
                            +:+ "/Messages/" +:+ message_id +:+ ".json";
                   body := NoBody;
                   auth := (account_sid, api_key) |} in
      let '(o, wire') := http rq wire in
      (expect 200 "Twilio" o, wire')
  | PlivoGateway auth_id api_key _ =>
      let rq := {| method := GET;
                   url := plivo_base_url auth_id +:+ "/Message/"
                            +:+ message_id +:+ "/";
                   body := NoBody;
                   auth := (auth_id, api_key) |} in
      let '(o, wire') := http rq wire in
      (expect 200 "Plivo" o, wire')
  end.

(** ** The engine: [SMSMessenger] *)

Record SMSMessenger : Type := {
  db : SMSDatabase;
  gateways : gmap string SMSGateway;
  wire : list request
}.

Definition add_gateway (self : SMSMessenger) (name : string)
    (g : SMSGateway) : SMSMessenger :=
  {| db := db self; gateways := <[name := g]> (gateways self);
     wire := wire self |}.

Definition not_configured (gateway_name : string) : exn :=
  ValueError ("Gateway " +:+ gateway_name +:+ " not configured").

(** [result.get('sid') or result.get('message_uuid')] *)
Definition gateway_message_id_of (result : json) : outcome json :=
  sid ← dict_get result "sid";
  if truthy sid then mret sid else dict_get result "message_uuid".

(** The statements both [try:] blocks share after the message row exists:
    send, mark the row [sent], add the log row.  Each of the three places
    that can raise ([send_sms], the [.get], the binding inside
    [update_message_status]) does so before the database is written, so a
    handler finds the database as it was, [d]. *)
Definition attempt (g : SMSGateway) (db_message_id : Z)
    (recipient message : string) (now : Z) (d : SMSDatabase)
    (wire : list request) : outcome (json * SMSDatabase) * list request :=
  let '(sent, wire') := send_sms g recipient message wire in
  (result ← sent;
   gateway_message_id ← gateway_message_id_of result;
   d1 ← update_message_status d db_message_id "sent" gateway_message_id now;
   mret (result,
         add_log_entry d1 db_message_id "sent" (json_dumps result) now),
   wire').

(** The statements both handlers share: mark the row [failed] and add the
    log row.  An exception of the handler itself replaces [e]. *)
Definition record_failure (d : SMSDatabase) (db_message_id : Z) (e : exn)
    (now : Z) : outcome SMSDatabase :=
  d1 ← update_message_status d db_message_id "failed" JNull now;
  mret (add_log_entry d1 db_message_id "failed" (str e) now).

Definition send_immediate_sms (self : SMSMessenger)
    (gateway_name recipient message : string) (now : Z)
  : outcome json * SMSMessenger :=
  match gateways self !! gateway_name with
  | None => (Raise (not_configured gateway_name), self)
  | Some g =>
      let '(db_message_id, d) :=
        log_message (db self) recipient message gateway_name "pending"
          None None now in
      let '(tried, wire') :=
        attempt g db_message_id recipient message now d (wire self) in
      match tried with
      | Return (result, d') =>
          (Return result,
           {| db := d'; gateways := gateways self; wire := wire' |})
      | Raise e =>
          if db_message_id =? 0 then
            (Raise e, {| db := d; gateways := gateways self; wire := wire' |})
          else
            match record_failure d db_message_id e now with
            | Return d' =>
                (Raise e,
                 {| db := d'; gateways := gateways self; wire := wire' |})
            | Raise e' =>
                (Raise e',
                 {| db := d; gateways := gateways self; wire := wire' |})
            end
      end
  end.

Definition schedule_sms (self : SMSMessenger)
    (gateway_name recipient message : string) (schedule_time : Z) (now : Z)
  : outcome Z * SMSMessenger :=
  match gateways self !! gateway_name with
  | None => (Raise (not_configured gateway_name), self)
  | Some _ =>
      let '(db_message_id, d) :=
        log_message (db self) recipient message gateway_name "scheduled"
          (Some schedule_time) None now in
      (Return db_message_id,
       {| db := d; gateways := gateways self; wire := wire self |})
  end.

(** One iteration of the loop of [process_scheduled_messages] on a row of
    the snapshot. *)
Definition process_message (now : Z) (self : SMSMessenger) (m : Message)
  : outcome unit * SMSMessenger :=
  match gateways self !! gateway m with
  | None => (Return tt, self)
  | Some g =>
      let '(tried, wire') :=
        attempt g (row_id m) (recipient m) (message m) now (db self)
          (wire self) in
      match tried with
      | Return (_, d') =>
          (Return tt,
           {| db := d'; gateways := gateways self; wire := wire' |})
      | Raise e =>
          match record_failure (db self) (row_id m) e now with
          | Return d' =>
              (Return tt,
               {| db := d'; gateways := gateways self; wire := wire' |})
          | Raise e' =>
              (Raise e',
               {| db := db self; gateways := gateways self;
                  wire := wire' |})
          end
      end
  end.

(** The [for] loop: an exception that leaves an iteration ends it. *)
Fixpoint process_all (now : Z) (pending_messages : list Message)
    (self : SMSMessenger) : outcome unit * SMSMessenger :=
  match pending_messages with
  | [] => (Return tt, self)
  | m :: rest =>
      match process_message now self m with
      | (Return _, self') => process_all now rest self'
      | (Raise e, self') => (Raise e, self')
      end
  end.

Definition process_scheduled_messages (self : SMSMessenger) (now : Z)
  : outcome unit * SMSMessenger :=
  process_all now (get_pending_messages (db self) now) self.

Definition check_delivery_status (self : SMSMessenger)
    (message_id gateway_name : string) : outcome json * SMSMessenger :=
  match gateways self !! gateway_name with
  | None => (Raise (not_configured gateway_name), self)
  | Some g =>
      let '(r, wire') := get_delivery_status g message_id (wire self) in
      (r, {| db := db self; gateways := gateways self; wire := wire' |})
  end.

Definition get_gateway_balance (self : SMSMessenger) (gateway_name : string)
  : outcome pyfloat * SMSMessenger :=
  match gateways self !! gateway_name with
  | None => (Raise (not_configured gateway_name), self)
  | Some g =>
      let '(r, wire') := get_balance g (wire self) in
      (r, {| db := db self; gateways := gateways self; wire := wire' |})
  end.

(** ** Runs of the engine *)

Inductive operation : Type :=
| RegisterProvider (name : string) (g : SMSGateway)
| SendNow (gateway_name recipient message : string) (now : Z)
| ScheduleFor (gateway_name recipient message : string)
    (schedule_time now : Z)
| DrainDue (now : Z).

Definition run (self : SMSMessenger) (op : operation) : SMSMessenger :=
  match op with
  | RegisterProvider name g => add_gateway self name g
  | SendNow gateway_name recipient message now =>
      (send_immediate_sms self gateway_name recipient message now).2
  | ScheduleFor gateway_name recipient message schedule_time now =>
      (schedule_sms self gateway_name recipient message schedule_time now).2
  | DrainDue now => (process_scheduled_messages self now).2
  end.

Definition run_all (self : SMSMessenger) (ops : list operation)
  : SMSMessenger :=
  foldl run self ops.

(** [SMSMessenger()] on a fresh database file. *)
Definition new_messenger : SMSMessenger :=
  {| db := empty_db; gateways := ∅; wire := [] |}.

(** ** Vocabulary of the statements *)

(** [SELECT * FROM messages WHERE id = ?] *)
Definition row_with_id (rows : list Message) (key : Z) : option Message :=
  List.find (fun m => row_id m =? key) rows.


(** What SQLite guarantees of the table [messages]: the primary keys are
    unique, positive and at most the sequence value. *)
Definition wf_db (d : SMSDatabase) : Prop :=
  NoDup (map row_id (messages d))
  /\ Forall (fun m => 1 <= row_id m <= messages_seq d) (messages d)
  /\ 0 <= messages_seq d.

(** The request [send_sms] puts on the wire, if any. *)
Definition send_sms_request (g : SMSGateway) (recipient message : string)
  : option request :=
  match g with
  | BaseGateway _ _ => None
  | TwilioGateway account_sid api_key sender_id =>
      Some {| method := POST;
              url := TWILIO_BASE_URL +:+ "/Accounts/" +:+ account_sid
                       +:+ "/Messages.json";
              body := FormData [("To", recipient); ("Body", message);
                                ("From", sender_or sender_id account_sid)];
              auth := (account_sid, api_key) |}
  | PlivoGateway auth_id api_key sender_id =>
      Some {| method := POST;
              url := plivo_base_url auth_id +:+ "/Message/";
              body := JsonData [("src", sender_or sender_id auth_id);
                                ("dst", recipient); ("text", message)];
              auth := (auth_id, api_key) |}
  end.

(** Some reply of the backend under a success code of [send_sms] decodes
    to a payload in which the engine finds no identifier: neither ['sid']
    nor ['message_uuid'] holds a true value. *)
Definition anonymous_reply : Prop :=
  exists k r payload gid,
    net k = Reply r /\ (status_code r = 201 \/ status_code r = 202)
    /\ decoded r = Some payload
    /\ gateway_message_id_of payload = Return gid /\ truthy gid = false.

(** Some reply of the backend under a success code of [send_sms] decodes
    to a payload whose identifier is a true value that SQLite stores as
    NULL: the float [NaN]. *)
Definition null_id_reply : Prop :=
  exists k r payload gid,
    net k = Reply r /\ (status_code r = 201 \/ status_code r = 202)
    /\ decoded r = Some payload
    /\ gateway_message_id_of payload = Return gid /\ truthy gid = true
    /\ bind_text gid = Return None.

(** What a delivery attempt makes of a row: marked [sent] with the
    provider's identifier and the time; marked [sent] with the time and a
    NULL identifier, which takes a reply whose identifier is [NaN]; marked
    [sent] without either, which takes a reply without identifier; or
    marked [failed]. *)
Inductive delivered (now : Z) (m : Message) : string -> Message -> Prop :=
| delivered_with_id v :
    delivered now m "sent" (set_sent "sent" (Some v) now m)
| delivered_null_id :
    null_id_reply ->
    delivered now m "sent" (set_sent "sent" None now m)
| delivered_without_id :
    anonymous_reply ->
    delivered now m "sent" (set_status "sent" m)
| delivery_failed :
    delivered now m "failed" (set_status "failed" m).

(** The database [d'] is [d] after an attempt on key [key] that ended in
    status [st]: the rows with that key are marked and one log row is
    added. *)
Definition marks (now key : Z) (st : string) (d d' : SMSDatabase) : Prop :=
  exists set det,
    (forall m, delivered now m st (set m))
    /\ messages d' = update_where_id key set (messages d)
    /\ logs d' = logs d ++
         [{| log_id := logs_seq d + 1; log_message_id := key;
             log_status := st; log_details := det;
             log_created_at := now |}]
    /\ messages_seq d' = messages_seq d.

Definition registered (registry : gmap string SMSGateway) (m : Message)
  : bool :=
  match registry !! gateway m with
  | Some _ => true
  | None => false
  end.

(** The request the loop sends for a row of the snapshot, if any. *)
Definition request_for (registry : gmap string SMSGateway) (m : Message)
  : option request :=
  match registry !! gateway m with
  | Some g => send_sms_request g (recipient m) (message m)
  | None => None
  end.

(** A row before and after a pass that attempts the keys [keys]. *)
Definition row_step (now : Z) (keys : list Z) (m m' : Message) : Prop :=
  (In (row_id m) keys /\ exists st, delivered now m st m')
  \/ (~ In (row_id m) keys /\ m' = m).

(** The log row [l] reports the attempt on the snapshot row [p]: it
    references [p], its status is ['sent'] or ['failed'], and it is the
    status the message has in [rows']. *)
Definition log_step (rows' : list Message) (p : Message) (l : LogEntry)
  : Prop :=
  log_message_id l = row_id p
  /\ (log_status l = "sent" \/ log_status l = "failed")
  /\ forall m', row_with_id rows' (row_id p) = Some m' ->
                status m' = log_status l.

(** The log row [l] reports the attempt on the due row [p]: it references
    [p], and the message is now [p] marked with the status of [l]. *)
Definition reported (now : Z) (rows' : list Message) (p : Message)
    (l : LogEntry) : Prop :=
  log_message_id l = row_id p
  /\ exists p', row_with_id rows' (row_id p) = Some p'
                /\ delivered now p (log_status l) p'.

(** What [update_message_status] never touches: the rows with another
    key, the log, the sequences. *)
Definition rest_untouched (key : Z) (d d' : SMSDatabase) : Prop :=
  (forall other, other <> key ->
     row_with_id (messages d') other = row_with_id (messages d) other)
  /\ logs d' = logs d
  /\ messages_seq d' = messages_seq d
  /\ logs_seq d' = logs_seq d.

(** The columns of a row: an identifier comes with [sent_at], and
    [sent_at] with the status ['sent']; the converses can fail only after
    a reply whose identifier is [NaN], and after a reply without
    identifier. *)
Definition row_ok (m : Message) : Prop :=
  (is_Some (message_id m) -> is_Some (sent_at m))
  /\ (is_Some (sent_at m) -> status m = "sent")
  /\ (is_Some (sent_at m) -> is_Some (message_id m) \/ null_id_reply)
  /\ (status m = "sent" -> is_Some (sent_at m) \/ anonymous_reply).

Definition inv (self : SMSMessenger) : Prop :=
  wf_db (db self) /\ Forall row_ok (messages (db self)).

(** Every row of [rows] that is not ['pending'] is still there, as it is,
    in [rows']. *)
Definition settled (rows rows' : list Message) : Prop :=
  forall key m,
    row_with_id rows key = Some m -> status m <> "pending" ->
    row_with_id rows' key = Some m.

(** The row [log_message] writes. *)
Definition new_row (key : Z) (recipient message gateway status : string)
    (scheduled_at : option Z) (now : Z) : Message :=
  {| row_id := key; contact_id := None; recipient := recipient;
     message := message; status := status; gateway := gateway;
     message_id := None; scheduled_at := scheduled_at; sent_at := None;
     created_at := now |}.

Definition new_log (key message_key : Z) (status : string) (details : detail)
    (now : Z) : LogEntry :=
  {| log_id := key; log_message_id := message_key; log_status := status;
     log_details := details; log_created_at := now |}.




(** The rows the engine leaves behind: deferred ones, ['scheduled'] with
    their time, and attempted ones, ['sent'] or ['failed'] without a
    scheduled time. *)
Definition row_shape (m : Message) : Prop :=
  (status m = "scheduled" /\ is_Some (scheduled_at m)
   /\ sent_at m = None /\ message_id m = None)
  \/ ((status m = "sent" \/ status m = "failed") /\ scheduled_at m = None).


(** ** Sample data for the examples *)

Definition sample_twilio : SMSGateway :=
  TwilioGateway "AC0001" "secret" (Some "+15550001111").

Definition sample_plivo : SMSGateway :=
  PlivoGateway "MA0001" "secret" None.

(** Twilio's reply to an accepted message. *)
Definition reply_created : response :=
  {| status_code := 201; text := "created";
     decoded := Some (JObj [("sid", JStr "SM0001");
                            ("status", JStr "queued")]) |}.

(** A reply under the success code whose payload names no identifier. *)
Definition reply_without_id : response :=
  {| status_code := 201; text := "created";
     decoded := Some (JObj [("status", JStr "queued")]) |}.

Definition reply_rejected : response :=
  {| status_code := 400; text := "insufficient balance";
     decoded := Some (JObj [("error", JStr "insufficient balance")]) |}.

Definition net_accepting : nat -> http_outcome :=
  fun _ => Reply reply_created.


Definition net_without_id : nat -> http_outcome :=
  fun _ => Reply reply_without_id.

(** Plivo's reply to an accepted message. *)
Definition reply_queued : response :=
  {| status_code := 202; text := "queued";
     decoded := Some (JObj [("message", JStr "message(s) queued");
                            ("message_uuid", JStr "5b40a428")]) |}.

(** The first request is rejected, the later ones are queued. *)
Definition net_first_rejected : nat -> http_outcome :=
  fun k => match k with
           | O => Reply reply_rejected
           | S _ => Reply reply_queued
           end.

(** A messenger with Twilio registered. *)
Definition twilio_messenger : SMSMessenger :=
  add_gateway new_messenger "twilio" sample_twilio.

(** A messenger with Twilio and Plivo registered. *)
Definition twilio_plivo_messenger : SMSMessenger :=
  add_gateway twilio_messenger "plivo" sample_plivo.

(** A database with two rows waiting to be sent, as [log_message] with its
    default status leaves them: one for Twilio, one for Plivo. *)
Definition two_pending : SMSDatabase :=
  (log_message
     (log_message empty_db "+15551230000" "hi" "twilio" "pending" None None
        10).2
     "+15551230001" "hello" "plivo" "pending" None None 11).2.

(** A reply under Twilio's success code whose [sid] is [NaN]. *)
Definition reply_nan_id : response :=
  {| status_code := 201; text := "created";
     decoded := Some (JObj [("sid", JFloat PrimFloat.nan "NaN")]) |}.

Definition net_nan_id : nat -> http_outcome :=
  fun _ => Reply reply_nan_id.

(** The [str] that holds the lone surrogate U+D800, as its bytes
    [ED A0 80]. *)
Definition lone_surrogate : string :=
  String (Ascii.ascii_of_N 237)
    (String (Ascii.ascii_of_N 160) (String (Ascii.ascii_of_N 128) "")).


(** A reply under Plivo's success code whose [message_uuid] is a list. *)
Definition reply_queued_list : response :=
  {| status_code := 202; text := "queued";
     decoded := Some (JObj [("message", JStr "message(s) queued");
                            ("message_uuid", JArr [JStr "5b40a428"])]) |}.

Definition net_queued_list : nat -> http_outcome :=
  fun _ => Reply reply_queued_list.

Definition net_queued : nat -> http_outcome :=
  fun _ => Reply reply_queued.

(** A reply to a balance query. *)
Definition reply_balance : response :=
  {| status_code := 200; text := "ok";
     decoded := Some (JObj [("balance", JStr "12.50");
                            ("currency", JStr "USD")]) |}.

Definition net_balance : nat -> http_outcome :=
  fun _ => Reply reply_balance.

Definition alice : contact_call :=
  {| call_name := "Alice"; call_phone := "+15551230000";
     call_email := None; call_group := Some "friends"; call_now := 5;
     call_key_reused := true |}.

Definition bob : contact_call :=
  {| call_name := "Bob"; call_phone := "+15551230001";
     call_email := Some "bob@example.org"; call_group := None;
     call_now := 6; call_key_reused := true |}.

(** A stand-in for the builtin [float] on the sample replies: strings
    convert, anything else is refused. *)
Definition sample_float (v : json) : outcome string :=
  match v with
  | JStr s => Return s
  | _ => Raise (TypeError "float() argument must be a string or a number")
  end.


(** ** Basic facts about the store *)

Lemma set_status_row_id st m : row_id (set_status st m) = row_id m.
Proof. reflexivity. Qed.

Lemma set_sent_row_id st v now m : row_id (set_sent st v now m) = row_id m.
Proof. reflexivity. Qed.

Lemma row_with_id_update key set rows i :
  (forall m, row_id (set m) = row_id m) ->
  row_with_id (update_where_id key set rows) i =
  if i =? key then set <$> row_with_id rows i else row_with_id rows i.
Proof.
  intros Hset. unfold row_with_id, update_where_id.
  induction rows as [|m rows IH]; simpl.
  - destruct (i =? key); reflexivity.
  - destruct (Z.eqb_spec (row_id m) key) as [Hk|Hk].
    + rewrite Hset. destruct (Z.eqb_spec (row_id m) i) as [Hi|Hi].
      * subst. rewrite Z.eqb_refl. reflexivity.
      * exact IH.
    + destruct (Z.eqb_spec (row_id m) i) as [Hi|Hi].
      * subst. destruct (Z.eqb_spec (row_id m) key); [contradiction|].
        reflexivity.
      * exact IH.
Qed.

Lemma row_with_id_app_fresh rows m i :
  row_with_id (rows ++ [m]) i =
  match row_with_id rows i with
  | Some r => Some r
  | None => if row_id m =? i then Some m else None
  end.
Proof.
  unfold row_with_id. induction rows as [|r rows IH]; simpl.
  - reflexivity.
  - destruct (row_id r =? i); [reflexivity | exact IH].
Qed.

Lemma row_with_id_Some rows i m :
  row_with_id rows i = Some m -> In m rows /\ row_id m = i.
Proof.
  unfold row_with_id. intros H. apply find_some in H as [Hin Heq].
  split; [exact Hin | lia].
Qed.

Lemma row_with_id_In rows m :
  NoDup (map row_id rows) -> In m rows ->
  row_with_id rows (row_id m) = Some m.
Proof.
  unfold row_with_id. induction rows as [|r rows IH]; simpl; [tauto|].
  intros Hnd [->|Hin].
  - rewrite Z.eqb_refl. reflexivity.
  - apply NoDup_cons in Hnd as [Hr Hnd].
    destruct (Z.eqb_spec (row_id r) (row_id m)) as [E|E].
    + exfalso. apply Hr. rewrite E. apply list_elem_of_In, in_map, Hin.
    + apply IH; assumption.
Qed.

Lemma update_message_status_unsupplied d i st g now :
  truthy g = false ->
  update_message_status d i st g now =
  Return (with_messages d (update_where_id i (set_status st) (messages d))).
Proof. intros H. unfold update_message_status. rewrite H. reflexivity. Qed.

Lemma update_message_status_supplied d i st g now v :
  truthy g = true -> bind_text g = Return v ->
  update_message_status d i st g now =
  Return (with_messages d (update_where_id i (set_sent st v now) (messages d))).
Proof.
  intros H Hb. unfold update_message_status. rewrite H, Hb. reflexivity.
Qed.

(** ** Gateways: the status code decides *)

Lemma expect_Return code who r payload :
  expect code who (Reply r) = Return payload <->
  status_code r = code /\ decoded r = Some payload.
Proof.
  unfold expect, response_json.
  destruct (Z.eqb_spec (status_code r) code) as [E|E].
  - destruct (decoded r) as [v|].
    + split.
      * intros [= ->]. auto.
      * intros [_ [= ->]]. reflexivity.
    + split; [discriminate | intros [_ [=]]].
  - split; [discriminate | intros [H _]; contradiction].
Qed.

Lemma expect_other_code code who r :
  status_code r <> code ->
  expect code who (Reply r) =
  Raise (Exception (who +:+ " API error: " +:+ text r)).
Proof.
  intros H. unfold expect.
  destruct (Z.eqb_spec (status_code r) code); [contradiction | reflexivity].
Qed.

Lemma gateway_message_id_of_dict fields :
  gateway_message_id_of (JObj fields) =
  Return (match assoc "sid" fields with
          | Some sid =>
              if truthy sid then sid
              else default JNull (assoc "message_uuid" fields)
          | None => default JNull (assoc "message_uuid" fields)
          end).
Proof.
  unfold gateway_message_id_of. simpl.
  destruct (assoc "sid" fields) as [sid|]; simpl.
  - destruct (truthy sid); reflexivity.
  - reflexivity.
Qed.

(** C9.  When the backend answers the request of a [send_sms] call with
    response [r]: the Twilio gateway returns the decoded body exactly when
    the status code is 201 and the Plivo gateway exactly when it is 202;
    under any other status code each raises an [Exception] whose text
    carries the response body.  The engine takes the provider's message
    identifier from the field ['sid'] when that field holds a true value
    and from ['message_uuid'] otherwise. *)
Theorem send_sms_status_code (wire : list request) (r : response)
    (recipient message : string) :
  net (length wire) = Reply r ->
  (forall account_sid auth_token sender_id,
     let sent := (send_sms (TwilioGateway account_sid auth_token sender_id)
                    recipient message wire).1 in
     (forall payload,
        sent = Return payload <->
        status_code r = 201 /\ decoded r = Some payload)
     /\ (status_code r <> 201 ->
         sent = Raise (Exception ("Twilio API error: " +:+ text r))))
  /\ (forall auth_id auth_token sender_id,
       let sent := (send_sms (PlivoGateway auth_id auth_token sender_id)
                      recipient message wire).1 in
       (forall payload,
          sent = Return payload <->
          status_code r = 202 /\ decoded r = Some payload)
       /\ (status_code r <> 202 ->
           sent = Raise (Exception ("Plivo API error: " +:+ text r))))
  /\ (forall fields sid,
       assoc "sid" fields = Some sid -> truthy sid = true ->
       gateway_message_id_of (JObj fields) = Return sid)
  /\ (forall fields,
       match assoc "sid" fields with
       | Some sid => truthy sid = false
       | None => True
       end ->
       gateway_message_id_of (JObj fields) =
       Return (default JNull (assoc "message_uuid" fields))).
Proof.
  intros Hnet. split; [|split; [|split]].
  - intros account_sid auth_token sender_id. simpl. unfold http.
    rewrite Hnet. simpl. split.
    + intros payload. apply expect_Return.
    + apply (expect_other_code 201 "Twilio").
  - intros auth_id auth_token sender_id. simpl. unfold http.
    rewrite Hnet. simpl. split.
    + intros payload. apply expect_Return.
    + apply (expect_other_code 202 "Plivo").
  - intros fields sid Hsid Ht. rewrite gateway_message_id_of_dict, Hsid, Ht. reflexivity.
  - intros fields H. rewrite gateway_message_id_of_dict.
    destruct (assoc "sid" fields) as [sid|]; [rewrite H|]; reflexivity.
Qed.

(** ** Queries to a gateway leave the store alone *)

(** C10.  [check_delivery_status] and [get_gateway_balance] return or
    raise with the database exactly as it was: no row of [messages] or
    [logs] is added, changed or removed, and no key is used up. *)
Theorem gateway_queries_leave_db (self : SMSMessenger)
    (message_id gateway_name : string) :
  db (check_delivery_status self message_id gateway_name).2 = db self
  /\ db (get_gateway_balance self gateway_name).2 = db self.
Proof.
  unfold check_delivery_status, get_gateway_balance.
  destruct (gateways self !! gateway_name) as [g|]; [|split; reflexivity].
  split.
  - destruct (get_delivery_status g message_id (wire self)); reflexivity.
  - destruct (get_balance g (wire self)); reflexivity.
Qed.

(** ** [send_immediate_sms] *)

(** C5.  With a gateway name that is not in the registry
    [send_immediate_sms] raises the [ValueError] "Gateway ... not
    configured" (the specification's ConfigurationError) and leaves the
    engine as it was: no message row, no log row, no request. *)
Theorem send_immediate_sms_unregistered (self : SMSMessenger)
    (gateway_name recipient message : string) (now : Z) :
  gateways self !! gateway_name = None ->
  send_immediate_sms self gateway_name recipient message now =
  (Raise (ValueError ("Gateway " +:+ gateway_name +:+ " not configured")),
   self).
Proof. intros H. unfold send_immediate_sms. rewrite H. reflexivity. Qed.

Lemma update_where_id_absent key set rows :
  Forall (fun m => row_id m <> key) rows ->
  update_where_id key set rows = rows.
Proof.
  unfold update_where_id. induction 1 as [|m rows Hm _ IH]; simpl.
  - reflexivity.
  - destruct (Z.eqb_spec (row_id m) key); [contradiction|].
    rewrite IH. reflexivity.
Qed.

Lemma update_where_id_app key set rows rows' :
  update_where_id key set (rows ++ rows') =
  update_where_id key set rows ++ update_where_id key set rows'.
Proof. unfold update_where_id. apply map_app. Qed.

Lemma wf_db_fresh d :
  wf_db d ->
  Forall (fun m => row_id m <> messages_seq d + 1) (messages d).
Proof.
  intros (_ & Hle & _). eapply Forall_impl; [exact Hle|].
  simpl. intros m Hm. lia.
Qed.


(** ** One delivery attempt *)

Lemma delivered_row_id now m st m' :
  delivered now m st m' -> row_id m' = row_id m.
Proof. destruct 1; reflexivity. Qed.

Lemma delivered_status now m st m' :
  delivered now m st m' ->
  status m' = st /\ (st = "sent" \/ st = "failed").
Proof. destruct 1; auto. Qed.

Lemma send_sms_wire g recipient message wire :
  (send_sms g recipient message wire).2 =
  wire ++ option_list (send_sms_request g recipient message).
Proof. destruct g; simpl; [rewrite app_nil_r|..]; reflexivity. Qed.

Lemma attempt_wire g key recipient message now d wire :
  (attempt g key recipient message now d wire).2 =
  wire ++ option_list (send_sms_request g recipient message).
Proof.
  unfold attempt. rewrite <- send_sms_wire.
  destruct (send_sms g recipient message wire); reflexivity.
Qed.

Lemma expect_Reply code who o payload :
  expect code who o = Return payload ->
  exists r, o = Reply r /\ status_code r = code /\ decoded r = Some payload.
Proof.
  destruct o as [msg|r]; [discriminate|]. intros H.
  apply expect_Return in H as [Hc H]. eauto.
Qed.

Lemma send_sms_Return g recipient message wire payload :
  (send_sms g recipient message wire).1 = Return payload ->
  exists r, net (length wire) = Reply r
            /\ (status_code r = 201 \/ status_code r = 202)
            /\ decoded r = Some payload.
Proof.
  destruct g; simpl; [discriminate|..]; intros H;
    apply expect_Reply in H as (r & Hr & Hc & Hd); eauto 6.
Qed.

Lemma attempt_Return g key recipient message now d wire result d' :
  (attempt g key recipient message now d wire).1 = Return (result, d') ->
  marks now key "sent" d d'.
Proof.
  unfold attempt.
  pose proof (send_sms_Return g recipient message wire) as Hnet.
  destruct (send_sms g recipient message wire) as [[res|e] wire']; simpl;
    [|discriminate].
  destruct (Hnet res eq_refl) as (r & Hr & Hcode & Hres).
  destruct (gateway_message_id_of res) as [gid|e] eqn:Hgid; simpl;
    [|discriminate].
  unfold update_message_status. destruct (truthy gid) eqn:Ht.
  - destruct (bind_text gid) as [bound|e] eqn:Hb; simpl; [|discriminate].
    intros [= <- <-]. exists (set_sent "sent" bound now), (json_dumps res).
    repeat split. intros m. destruct bound as [v|]; constructor.
    exists (length wire), r, res, gid. auto 6.
  - simpl. intros [= <- <-]. exists (set_status "sent"), (json_dumps res).
    repeat split. intros m. constructor.
    exists (length wire), r, res, gid. auto 6.
Qed.

Lemma record_failure_marks d key e now :
  exists d', record_failure d key e now = Return d'
             /\ marks now key "failed" d d'.
Proof.
  eexists. split; [reflexivity|].
  exists (set_status "failed"), (str e). repeat split. intros m. constructor.
Qed.

(** An iteration of the drain loop never raises; on a registered gateway
    it puts the request on the wire, marks the row and adds one log
    row. *)
Lemma process_message_registered now self m g :
  gateways self !! gateway m = Some g ->
  exists self' st,
    process_message now self m = (Return tt, self')
    /\ gateways self' = gateways self
    /\ wire self' =
         wire self ++ option_list (send_sms_request g (recipient m) (message m))
    /\ marks now (row_id m) st (db self) (db self').
Proof.
  intros Hg. unfold process_message. rewrite Hg.
  pose proof (attempt_wire g (row_id m) (recipient m) (message m) now
                (db self) (wire self)) as Hw.
  pose proof (attempt_Return g (row_id m) (recipient m) (message m) now
                (db self) (wire self)) as Hr.
  destruct (attempt g (row_id m) (recipient m) (message m) now (db self)
              (wire self)) as [[[result d']|e] wire'];
    simpl in Hw, Hr; subst wire'.
  - eexists _, "sent". repeat split. simpl. eapply Hr. reflexivity.
  - destruct (record_failure_marks (db self) (row_id m) e now)
      as (d' & -> & Hmarks).
    eexists _, "failed". repeat split. exact Hmarks.
Qed.

Lemma process_message_unregistered now self m :
  gateways self !! gateway m = None ->
  process_message now self m = (Return tt, self).
Proof. intros Hg. unfold process_message. rewrite Hg. reflexivity. Qed.

(** ** The drain loop *)

Lemma row_step_row_id now keys m m' :
  row_step now keys m m' -> row_id m' = row_id m.
Proof.
  intros [[_ [st H]]|[_ ->]]; [eapply delivered_row_id, H | reflexivity].
Qed.

Lemma row_step_nil now rows : Forall2 (row_step now []) rows rows.
Proof.
  induction rows; constructor; [right; split; [intros []|reflexivity] | assumption].
Qed.

Lemma row_step_update now key st set rows :
  (forall m, delivered now m st (set m)) ->
  Forall2 (row_step now [key]) rows (update_where_id key set rows).
Proof.
  intros Hset. unfold update_where_id.
  induction rows as [|m rows IH]; simpl; constructor; [|exact IH].
  destruct (Z.eqb_spec (row_id m) key) as [E|E].
  - left. split; [simpl; auto | eauto].
  - right. split; [intros [Hk|[]]; congruence | reflexivity].
Qed.

Lemma row_step_compose now key keys m m1 m' :
  ~ In key keys ->
  row_step now [key] m m1 -> row_step now keys m1 m' ->
  row_step now (key :: keys) m m'.
Proof.
  intros Hkey [[Hin [st Hd]]|[Hout ->]] H.
  - destruct Hin as [Hin|[]].
    pose proof (delivered_row_id _ _ _ _ Hd) as Hid.
    destruct H as [[Hin1 _]|[_ ->]].
    + exfalso. apply Hkey. congruence.
    + left. split; [simpl; auto | eauto].
  - destruct H as [[Hin Hd]|[Hnin ->]].
    + left. split; [simpl; auto | exact Hd].
    + right. split; [|reflexivity]. intros [Hk|Hk]; [|contradiction].
      apply Hout. left. exact Hk.
Qed.

Lemma Forall2_row_with_id (R : Message -> Message -> Prop) rows rows' i :
  (forall a b, R a b -> row_id b = row_id a) ->
  Forall2 R rows rows' ->
  match row_with_id rows i, row_with_id rows' i with
  | Some m, Some m' => R m m'
  | None, None => True
  | _, _ => False
  end.
Proof.
  intros Hid. unfold row_with_id. induction 1 as [|a b rows rows' Hab _ IH].
  - exact I.
  - simpl. rewrite (Hid _ _ Hab).
    destruct (row_id a =? i); [exact Hab | exact IH].
Qed.

Lemma filter_registered_keys registry ps key :
  In key (map row_id (List.filter (registered registry) ps)) ->
  In key (map row_id ps).
Proof.
  intros H. apply in_map_iff in H as (m & <- & Hm).
  apply filter_In in Hm as [Hm _]. apply in_map, Hm.
Qed.

Lemma process_all_spec now ps : forall self,
  NoDup (map row_id ps) ->
  exists self',
    process_all now ps self = (Return tt, self')
    /\ gateways self' = gateways self
    /\ messages_seq (db self') = messages_seq (db self)
    /\ wire self' = wire self ++ omap (request_for (gateways self)) ps
    /\ Forall2
         (row_step now
            (map row_id (List.filter (registered (gateways self)) ps)))
         (messages (db self)) (messages (db self'))
    /\ exists new,
         logs (db self') = logs (db self) ++ new
         /\ Forall2 (log_step (messages (db self')))
              (List.filter (registered (gateways self)) ps) new.
Proof.
  induction ps as [|h t IH]; intros self Hnd.
  - exists self. simpl. rewrite !app_nil_r.
    repeat split; [apply row_step_nil|]. exists []. rewrite app_nil_r.
    split; [reflexivity | constructor].
  - simpl in Hnd. apply NoDup_cons in Hnd as [Hh Hnd].
    rewrite list_elem_of_In in Hh.
    simpl. destruct (gateways self !! gateway h) as [g|] eqn:Hg.
    + assert (Hreg : registered (gateways self) h = true)
        by (unfold registered; rewrite Hg; reflexivity).
      assert (Hreq : request_for (gateways self) h =
                     send_sms_request g (recipient h) (message h))
        by (unfold request_for; rewrite Hg; reflexivity).
      rewrite Hreg, Hreq. destruct (process_message_registered now self h g Hg)
        as (self1 & st & -> & Hgw & Hwire & set & det & Hset & Hrows
            & Hlogs & Hseq).
      destruct (IH self1 Hnd)
        as (self' & Hrun & Hgw' & Hseq' & Hwire' & Hrows' & new & Hlogs'
            & Hnew).
      rewrite Hgw in *. exists self'. split; [exact Hrun|].
      split; [exact Hgw'|]. split; [congruence|].
      assert (Hfresh : ~ In (row_id h)
                (map row_id (List.filter (registered (gateways self)) t))).
      { intros Hin. apply Hh. eapply filter_registered_keys, Hin. }
      split; [|split].
      * rewrite Hwire', Hwire, <- app_assoc. f_equal.
        destruct (send_sms_request g (recipient h) (message h));
          reflexivity.
      * simpl. pose proof Hrows' as Hrows2. rewrite Hrows in Hrows2.
        eapply Forall2_trans;
          [|eapply (row_step_update now (row_id h)), Hset|exact Hrows2].
        intros m m1 m'. apply row_step_compose, Hfresh.
      * eexists (_ :: new). split.
        -- rewrite Hlogs', Hlogs, <- app_assoc. reflexivity.
        -- constructor; [|exact Hnew].
           destruct (delivered_status _ _ _ _ (Hset h)) as [_ Hst].
           split; [reflexivity|]. split; [exact Hst|]. simpl.
           intros m' Hm'.
           pose proof (Forall2_row_with_id _ _ _ (row_id h)
                         (row_step_row_id now _) Hrows') as Hrel.
           rewrite Hm' in Hrel.
           destruct (row_with_id (messages (db self1)) (row_id h))
             as [m1|] eqn:Hm1; [|contradiction].
           apply row_with_id_Some in Hm1 as [Hin1 Hid1].
           destruct Hrel as [[Hin _]|[_ ->]];
             [rewrite Hid1 in Hin; contradiction|].
           rewrite Hrows in Hin1. unfold update_where_id in Hin1.
           apply in_map_iff in Hin1 as (m0 & Hm0 & _).
           destruct (Z.eqb_spec (row_id m0) (row_id h)) as [E|E].
           ++ subst m1. apply (delivered_status _ _ _ _ (Hset m0)).
           ++ subst m1. contradiction.
    + assert (Hreg : registered (gateways self) h = false)
        by (unfold registered; rewrite Hg; reflexivity).
      assert (Hreq : request_for (gateways self) h = None)
        by (unfold request_for; rewrite Hg; reflexivity).
      rewrite Hreg, Hreq, (process_message_unregistered now self h Hg).
      apply IH, Hnd.
Qed.

(** ** A drain pass *)

Lemma pending_keys_NoDup d now :
  wf_db d -> NoDup (map row_id (get_pending_messages d now)).
Proof.
  intros [Hnd _]. unfold get_pending_messages.
  induction (messages d) as [|m rows IH]; simpl; [constructor|].
  simpl in Hnd. apply NoDup_cons in Hnd as [Hm Hnd].
  destruct (is_pending now m); [|apply IH, Hnd].
  simpl. apply NoDup_cons. split; [|apply IH, Hnd].
  intros Hin. apply Hm. rewrite list_elem_of_In in *.
  apply in_map_iff in Hin as (m' & E & Hin). apply filter_In in Hin as [Hin _].
  rewrite <- E. apply in_map, Hin.
Qed.

Lemma Forall2_impl_Forall {A B} (P : A -> Prop) (R Q : A -> B -> Prop) l k :
  Forall2 R l k -> Forall P l -> (forall x y, P x -> R x y -> Q x y) ->
  Forall2 Q l k.
Proof.
  intros HR HP HQ. induction HR as [|x y l k Hxy _ IH]; constructor.
  - apply HQ; [|exact Hxy]. apply Forall_cons in HP. apply HP.
  - apply IH. apply Forall_cons in HP. apply HP.
Qed.

Lemma same_key_same_row rows m p :
  NoDup (map row_id rows) -> In m rows -> In p rows ->
  row_id p = row_id m -> p = m.
Proof.
  intros Hnd Hm Hp E.
  pose proof (row_with_id_In _ _ Hnd Hm) as H1.
  pose proof (row_with_id_In _ _ Hnd Hp) as H2.
  rewrite E in H2. congruence.
Qed.

Lemma process_scheduled_messages_spec self now :
  wf_db (db self) ->
  let due := get_pending_messages (db self) now in
  let attempted := List.filter (registered (gateways self)) due in
  exists self' new,
    process_scheduled_messages self now = (Return tt, self')
    /\ gateways self' = gateways self
    /\ messages_seq (db self') = messages_seq (db self)
    /\ wire self' = wire self ++ omap (request_for (gateways self)) due
    /\ logs (db self') = logs (db self) ++ new
    /\ Forall2 (row_step now (map row_id attempted))
         (messages (db self)) (messages (db self'))
    /\ Forall2 (reported now (messages (db self'))) attempted new.
Proof.
  intros Hwf due attempted.
  destruct (process_all_spec now due self (pending_keys_NoDup _ _ Hwf))
    as (self' & Hrun & Hgw & Hseq & Hwire & Hrows & new & Hlogs & Hnew).
  exists self', new. repeat split; try assumption.
  destruct Hwf as (Hnd & _).
  eapply Forall2_impl_Forall with (P := fun p => In p attempted);
    [exact Hnew | apply Forall_forall; intros p Hp;
                  apply list_elem_of_In, Hp |].
  intros p l Hp (Hid & _ & Hst). split; [exact Hid|].
  assert (Hin : In p (messages (db self))).
  { apply filter_In in Hp as [Hp _]. apply filter_In in Hp as [Hp _].
    exact Hp. }
  pose proof (Forall2_row_with_id _ _ _ (row_id p)
                (row_step_row_id now _) Hrows) as Hrel.
  rewrite (row_with_id_In _ _ Hnd Hin) in Hrel.
  destruct (row_with_id (messages (db self')) (row_id p)) as [p'|] eqn:Hp';
    [|contradiction].
  exists p'. split; [reflexivity|].
  destruct Hrel as [[_ [st Hd]]|[Hout _]].
  - rewrite <- (Hst p' eq_refl).
    destruct (delivered_status _ _ _ _ Hd) as [-> _]. exact Hd.
  - exfalso. apply Hout, in_map, Hp.
Qed.



(** ** Invariants of the runs *)

Lemma delivered_row_ok now m st m' :
  sent_at m = None -> message_id m = None ->
  delivered now m st m' -> row_ok m'.
Proof.
  intros Hs Hi [v|Hnull|Hanon|]; unfold row_ok; simpl.
  - repeat split; eauto.
  - split; [intros [? [=]]|]. repeat split; eauto.
  - rewrite Hs, Hi. repeat split; try (intros [? [=]]). auto.
  - rewrite Hs, Hi. repeat split; try (intros [? [=]]). discriminate.
Qed.

Lemma row_ok_pending m :
  row_ok m -> status m = "pending" -> sent_at m = None /\ message_id m = None.
Proof.
  intros (Hid & Hsent & _) Hst.
  assert (Hs : sent_at m = None).
  { destruct (sent_at m) eqn:E; [|reflexivity].
    rewrite Hsent in Hst by eauto. discriminate. }
  split; [exact Hs|].
  destruct (message_id m) eqn:E; [|reflexivity].
  rewrite Hs in Hid. destruct Hid as [? [=]]. eauto.
Qed.

Lemma Forall2_keys (R : Message -> Message -> Prop) rows rows' :
  (forall a b, R a b -> row_id b = row_id a) ->
  Forall2 R rows rows' -> map row_id rows' = map row_id rows.
Proof.
  intros Hid. induction 1 as [|a b rows rows' Hab _ IH]; simpl.
  - reflexivity.
  - rewrite (Hid _ _ Hab), IH. reflexivity.
Qed.

Lemma row_step_inv now keys d d' :
  wf_db d -> Forall row_ok (messages d) ->
  (forall m, In m (messages d) -> In (row_id m) keys ->
             status m = "pending") ->
  Forall2 (row_step now keys) (messages d) (messages d') ->
  messages_seq d' = messages_seq d ->
  wf_db d' /\ Forall row_ok (messages d').
Proof.
  intros (Hnd & Hle & Hseq) Hok Hpend Hrows Hs.
  pose proof (Forall2_keys _ _ _ (row_step_row_id now keys) Hrows) as Hkeys.
  split.
  - unfold wf_db. rewrite Hkeys, Hs. split; [exact Hnd|]. split; [|exact Hseq].
    rewrite Forall_forall in Hle. apply Forall_forall. intros m' Hm'.
    apply list_elem_of_In, (in_map row_id) in Hm'. rewrite Hkeys in Hm'.
    apply in_map_iff in Hm' as (m & E & Hm).
    rewrite <- E. apply Hle, list_elem_of_In, Hm.
  - rewrite Forall_forall in Hok.
    assert (Hall : forall m, In m (messages d) -> row_ok m /\
              (In (row_id m) keys -> status m = "pending")).
    { intros m Hm. split; [apply Hok, list_elem_of_In, Hm | apply Hpend, Hm]. }
    clear Hok Hpend Hnd Hle Hkeys.
    induction Hrows as [|m m' rows rows' Hmm _ IH]; constructor.
    + destruct (Hall m (or_introl eq_refl)) as [Hm Hp].
      destruct Hmm as [[Hin [st Hd]]|[_ ->]]; [|exact Hm].
      destruct (row_ok_pending m Hm (Hp Hin)) as [H1 H2].
      eapply delivered_row_ok; eassumption.
    + apply IH. intros x Hx. apply Hall. right. exact Hx.
Qed.

Lemma row_step_settled now keys rows rows' :
  (forall m, In m rows -> In (row_id m) keys -> status m = "pending") ->
  Forall2 (row_step now keys) rows rows' ->
  settled rows rows'.
Proof.
  intros Hpend Hrows key m Hm Hst.
  pose proof (Forall2_row_with_id _ _ _ key (row_step_row_id now keys) Hrows)
    as Hrel.
  rewrite Hm in Hrel. apply row_with_id_Some in Hm as [Hin _].
  destruct (row_with_id rows' key) as [m'|]; [|contradiction].
  destruct Hrel as [[Hk _]|[_ ->]]; [|reflexivity].
  destruct (Hst (Hpend m Hin Hk)).
Qed.

Lemma settled_refl rows : settled rows rows.
Proof. intros key m Hm _. exact Hm. Qed.

Lemma settled_trans rows1 rows2 rows3 :
  settled rows1 rows2 -> settled rows2 rows3 -> settled rows1 rows3.
Proof. intros H12 H23 key m Hm Hst. apply H23, Hst. apply H12; assumption. Qed.

Lemma is_pending_status now m : is_pending now m = true -> status m = "pending".
Proof.
  unfold is_pending. intros H. apply andb_prop in H as [H _].
  apply String.eqb_eq, H.
Qed.

Lemma log_message_inv d recipient message gateway st scheduled contact now :
  wf_db d -> Forall row_ok (messages d) -> st <> "sent" ->
  let d1 := (log_message d recipient message gateway st scheduled contact
               now).2 in
  wf_db d1 /\ Forall row_ok (messages d1)
  /\ settled (messages d) (messages d1).
Proof.
  intros Hwf Hok Hst. pose proof (wf_db_fresh _ Hwf) as Hfresh.
  destruct Hwf as (Hnd & Hle & Hseq). simpl. split; [|split].
  - unfold wf_db. simpl. split; [|split; [|lia]].
    + rewrite map_app. apply NoDup_app. split; [exact Hnd|]. split.
      * intros key Hkey Hnew. apply list_elem_of_In in Hnew as [Hnew|[]].
        simpl in Hnew. subst key.
        apply list_elem_of_In, in_map_iff in Hkey as (m & E & Hm).
        rewrite Forall_forall in Hfresh.
        apply (Hfresh m); [apply list_elem_of_In, Hm | exact E].
      * simpl. apply NoDup_singleton.
    + apply Forall_app. split.
      * eapply Forall_impl; [exact Hle|]. simpl. intros m Hm. lia.
      * apply Forall_singleton. simpl. lia.
  - apply Forall_app. split; [exact Hok|]. apply Forall_singleton.
    unfold row_ok. simpl. repeat split; try (intros [? [=]]).
    intros E. destruct (Hst E).
  - intros key m Hm _. rewrite row_with_id_app_fresh, Hm. reflexivity.
Qed.

Lemma send_immediate_sms_registered self gateway_name recipient message now g :
  0 <= messages_seq (db self) ->
  gateways self !! gateway_name = Some g ->
  exists st,
    marks now (messages_seq (db self) + 1) st
      (log_message (db self) recipient message gateway_name "pending" None
         None now).2
      (db (send_immediate_sms self gateway_name recipient message now).2).
Proof.
  intros Hseq Hg. unfold send_immediate_sms. rewrite Hg.
  destruct (log_message (db self) recipient message gateway_name "pending"
              None None now) as [key d1] eqn:Hlog.
  assert (Hkey : key = messages_seq (db self) + 1)
    by (unfold log_message in Hlog; congruence).
  clear Hlog. subst key. cbn [snd].
  pose proof (attempt_Return g (messages_seq (db self) + 1) recipient message
                now d1 (wire self)) as Hr.
  destruct (attempt g (messages_seq (db self) + 1) recipient message now d1
              (wire self)) as [[[result d']|e] wire']; cbn [fst] in Hr.
  - exists "sent". cbn [snd db]. eapply Hr. reflexivity.
  - destruct (Z.eqb_spec (messages_seq (db self) + 1) 0) as [E|_]; [lia|].
    destruct (record_failure_marks d1 (messages_seq (db self) + 1) e now)
      as (d' & -> & Hmarks).
    exists "failed". exact Hmarks.
Qed.

Lemma marks_row_step now key st d d' :
  marks now key st d d' ->
  Forall2 (row_step now [key]) (messages d) (messages d')
  /\ messages_seq d' = messages_seq d.
Proof.
  intros (set & det & Hset & -> & _ & Hseq). split; [|exact Hseq].
  eapply row_step_update, Hset.
Qed.

Lemma run_inv self op :
  inv self ->
  inv (run self op)
  /\ settled (messages (db self)) (messages (db (run self op))).
Proof.
  intros [Hwf Hok]. destruct op as [name g|name rc msg now|name rc msg t now|now];
    simpl.
  - split; [split; assumption | apply settled_refl].
  - destruct (gateways self !! name) as [g|] eqn:Hg.
    + destruct (log_message_inv (db self) rc msg name "pending" None None now
                  Hwf Hok ltac:(discriminate)) as (Hwf1 & Hok1 & Hset1).
      pose proof (wf_db_fresh _ Hwf) as Hfresh.
      destruct (send_immediate_sms_registered self name rc msg now g
                  ltac:(apply Hwf) Hg) as (st & Hmarks).
      apply marks_row_step in Hmarks as [Hrows Hseq].
      assert (Hpend : forall m,
                 In m (messages (log_message (db self) rc msg name "pending"
                                   None None now).2) ->
                 In (row_id m) [messages_seq (db self) + 1] ->
                 status m = "pending").
      { simpl. intros m Hm [E|[]]. apply in_app_or in Hm as [Hm|[<-|[]]].
        - rewrite Forall_forall in Hfresh.
          destruct (Hfresh m (proj2 (list_elem_of_In _ _) Hm)). auto.
        - reflexivity. }
      split.
      * apply (row_step_inv now _ _ _ Hwf1 Hok1 Hpend Hrows Hseq).
      * eapply settled_trans; [exact Hset1|].
        eapply row_step_settled; eassumption.
    + unfold send_immediate_sms. rewrite Hg. simpl.
      split; [split; assumption | apply settled_refl].
  - unfold schedule_sms. destruct (gateways self !! name) as [g|] eqn:Hg.
    + destruct (log_message_inv (db self) rc msg name "scheduled" (Some t)
                  None now Hwf Hok ltac:(discriminate)) as (Hwf1 & Hok1 & Hset1).
      split; [split; assumption | exact Hset1].
    + split; [split; assumption | apply settled_refl].
  - destruct (process_scheduled_messages_spec self now Hwf)
      as (self' & new & -> & _ & Hseq & _ & _ & Hrows & _).
    simpl.
    assert (Hpend : forall m,
               In m (messages (db self)) ->
               In (row_id m)
                 (map row_id
                    (List.filter (registered (gateways self))
                       (get_pending_messages (db self) now))) ->
               status m = "pending").
    { intros m Hm Hk. apply in_map_iff in Hk as (p & E & Hp).
      apply filter_In in Hp as [Hp _]. apply filter_In in Hp as [Hp Hpen].
      rewrite <- (same_key_same_row _ _ _ (proj1 Hwf) Hm Hp E).
      eapply is_pending_status, Hpen. }
    split.
    + apply (row_step_inv now _ _ _ Hwf Hok Hpend Hrows Hseq).
    + eapply row_step_settled; eassumption.
Qed.

Lemma inv_new_messenger : inv new_messenger.
Proof.
  split; [|constructor]. unfold wf_db. simpl.
  split; [constructor|]. split; [constructor | lia].
Qed.

Lemma run_all_inv ops : forall self,
  inv self ->
  inv (run_all self ops)
  /\ settled (messages (db self)) (messages (db (run_all self ops))).
Proof.
  unfold run_all. induction ops as [|op ops IH]; intros self Hinv; simpl.
  - split; [exact Hinv | apply settled_refl].
  - destruct (run_inv self op Hinv) as [Hinv1 Hset1].
    destruct (IH _ Hinv1) as [Hinv' Hset'].
    split; [exact Hinv' | eapply settled_trans; eassumption].
Qed.

(** C2, amended.  In every state that a sequence of [add_gateway],
    [send_immediate_sms], [schedule_sms] and [process_scheduled_messages]
    calls reaches from a new messenger, whatever the backend answers, a
    message row that has [message_id] set has [sent_at] set, and a row
    that has [sent_at] set has the status ['sent'].  Conversely, a row with
    [sent_at] set has [message_id] set provided no reply under a success
    code (201 or 202) carried an identifier that is a true value stored as
    NULL ([NaN]); and a row whose status is ['sent'] has [sent_at] set
    provided every reply under a success code carried an identifier (a
    true value under ['sid'] or ['message_uuid']). *)
Theorem sent_columns_go_together (ops : list operation) (m : Message) :
  In m (messages (db (run_all new_messenger ops))) ->
  (is_Some (message_id m) -> is_Some (sent_at m))
  /\ (is_Some (sent_at m) -> status m = "sent")
  /\ ((forall k r payload gid,
         net k = Reply r -> status_code r = 201 \/ status_code r = 202 ->
         decoded r = Some payload ->
         gateway_message_id_of payload = Return gid -> truthy gid = true ->
         bind_text gid <> Return None) ->
      is_Some (sent_at m) -> is_Some (message_id m))
  /\ ((forall k r payload gid,
         net k = Reply r -> status_code r = 201 \/ status_code r = 202 ->
         decoded r = Some payload ->
         gateway_message_id_of payload = Return gid -> truthy gid = true) ->
      status m = "sent" -> is_Some (sent_at m)).
Proof.
  intros Hm.
  destruct (run_all_inv ops new_messenger inv_new_messenger) as [[_ Hok] _].
  rewrite Forall_forall in Hok.
  destruct (Hok m (proj2 (list_elem_of_In _ _) Hm))
    as (Hid & Hsent & Hnull & Hanon).
  split; [exact Hid|]. split; [exact Hsent|]. split.
  - intros Hnet Hs.
    destruct (Hnull Hs)
      as [Hi|(k & r & v & gid & H1 & H2 & H3 & H4 & H5 & H6)];
      [exact Hi|].
    destruct (Hnet k r v gid H1 H2 H3 H4 H5 H6).
  - intros Hnet Hst.
    destruct (Hanon Hst) as [Hs|(k & r & v & gid & H1 & H2 & H3 & H4 & H5)];
      [exact Hs|].
    rewrite (Hnet k r v gid H1 H2 H3 H4) in H5. discriminate.
Qed.


(** ** [update_message_status] *)

Lemma rest_untouched_update key set d :
  (forall m, row_id (set m) = row_id m) ->
  rest_untouched key d
    (with_messages d (update_where_id key set (messages d))).
Proof.
  intros Hset. repeat split. intros other Ho. simpl.
  rewrite row_with_id_update by exact Hset.
  destruct (Z.eqb_spec other key); [contradiction | reflexivity].
Qed.

(** C8, amended.  For a message row [m] with key [db_message_id]: when the
    [gateway_message_id] argument is a true value that [sqlite3] binds, the
    row gets the new status, [sent_at = now] and, as its identifier, what
    SQLite stores for the argument in the [TEXT] column (a string itself,
    a number's text, NULL for [NaN]); when the argument is a true value
    that [sqlite3] does not bind (a list, a dict, an integer beyond 64
    bits, a string with a lone surrogate), the call raises the error of
    the binding and no statement runs; when the argument is missing or a
    false value (the empty string in particular), the row changes in its
    status only.  When the call returns, the other rows, the log and the
    sequences stay as they were. *)
Theorem update_message_status_effect (d : SMSDatabase) (db_message_id : Z)
    (status : string) (gateway_message_id : json) (now : Z) (m : Message) :
  row_with_id (messages d) db_message_id = Some m ->
  (truthy gateway_message_id = true ->
   forall bound, bind_text gateway_message_id = Return bound ->
   exists d',
     update_message_status d db_message_id status gateway_message_id now
       = Return d'
     /\ row_with_id (messages d') db_message_id
          = Some {| row_id := row_id m; contact_id := contact_id m;
                    recipient := recipient m; message := message m;
                    status := status; gateway := gateway m;
                    message_id := bound;
                    scheduled_at := scheduled_at m; sent_at := Some now;
                    created_at := created_at m |}
     /\ rest_untouched db_message_id d d')
  /\ (truthy gateway_message_id = true ->
      forall e, bind_text gateway_message_id = Raise e ->
      update_message_status d db_message_id status gateway_message_id now
        = Raise e)
  /\ (truthy gateway_message_id = false ->
      exists d',
        update_message_status d db_message_id status gateway_message_id now
          = Return d'
        /\ row_with_id (messages d') db_message_id
             = Some {| row_id := row_id m; contact_id := contact_id m;
                       recipient := recipient m; message := message m;
                       status := status; gateway := gateway m;
                       message_id := message_id m;
                       scheduled_at := scheduled_at m; sent_at := sent_at m;
                       created_at := created_at m |}
        /\ rest_untouched db_message_id d d').
Proof.
  intros Hm. split; [|split].
  - intros Ht bound Hb. eexists. split; [|split].
    + apply update_message_status_supplied; eassumption.
    + simpl. rewrite row_with_id_update by apply set_sent_row_id.
      rewrite Z.eqb_refl, Hm. reflexivity.
    + apply rest_untouched_update, set_sent_row_id.
  - intros Ht e Hb. unfold update_message_status. rewrite Ht, Hb.
    reflexivity.
  - intros Ht. eexists. split; [|split].
    + apply update_message_status_unsupplied; assumption.
    + simpl. rewrite row_with_id_update by apply set_status_row_id.
      rewrite Z.eqb_refl, Hm. reflexivity.
    + apply rest_untouched_update, set_status_row_id.
Qed.

(** ** More on [send_immediate_sms] and [schedule_sms] *)

(** X1.  When the gateway is registered, [send_sms] returns [result] and
    the identifier found in [result] is a true value that SQLite binds,
    [send_immediate_sms] returns [result]; the table [messages] gets one
    new row, ['sent'], with the identifier and [sent_at = now], and the
    table [logs] one new row, ['sent'], that keeps [json.dumps(result)]. *)
Theorem send_immediate_sms_accepted (self : SMSMessenger)
    (gateway_name recipient message : string) (now : Z) (g : SMSGateway)
    (result gid : json) (bound : option string) :
  wf_db (db self) ->
  gateways self !! gateway_name = Some g ->
  (send_sms g recipient message (wire self)).1 = Return result ->
  gateway_message_id_of result = Return gid ->
  truthy gid = true ->
  bind_text gid = Return bound ->
  exists self',
    send_immediate_sms self gateway_name recipient message now
      = (Return result, self')
    /\ messages (db self') =
         messages (db self) ++
         [{| row_id := messages_seq (db self) + 1; contact_id := None;
             recipient := recipient; message := message;
             status := "sent"; gateway := gateway_name;
             message_id := bound; scheduled_at := None;
             sent_at := Some now; created_at := now |}]
    /\ logs (db self') =
         logs (db self) ++
         [{| log_id := logs_seq (db self) + 1;
             log_message_id := messages_seq (db self) + 1;
             log_status := "sent"; log_details := json_dumps result;
             log_created_at := now |}].
Proof.
  intros Hwf Hg Hsend Hgid Ht Hb. pose proof (wf_db_fresh _ Hwf) as Hfresh.
  unfold send_immediate_sms. rewrite Hg. simpl. unfold attempt.
  destruct (send_sms g recipient message (wire self)) as [sent wire'].
  simpl in Hsend. subst sent. simpl. rewrite Hgid. simpl.
  unfold update_message_status. rewrite Ht, Hb. simpl.
  eexists. split; [reflexivity|]. simpl.
  rewrite update_where_id_app, update_where_id_absent by exact Hfresh.
  simpl. rewrite Z.eqb_refl. split; reflexivity.
Qed.

(** X2.  When [send_sms] returns [result] but the identifier cannot be
    taken from it or stored -- [result] is not a dict, or the identifier
    is a list, a dict or an integer beyond 64 bits -- the exception [e] of
    that step is what [send_immediate_sms] raises, and the message is
    recorded as ['failed'] with [str(e)] in its log row, although the
    gateway accepted it. *)
Theorem send_immediate_sms_accepted_not_recorded (self : SMSMessenger)
    (gateway_name recipient message : string) (now : Z) (g : SMSGateway)
    (result : json) (e : exn) :
  wf_db (db self) ->
  gateways self !! gateway_name = Some g ->
  (send_sms g recipient message (wire self)).1 = Return result ->
  (gateway_message_id_of result = Raise e
   \/ exists gid, gateway_message_id_of result = Return gid
                  /\ truthy gid = true /\ bind_text gid = Raise e) ->
  exists self',
    send_immediate_sms self gateway_name recipient message now
      = (Raise e, self')
    /\ messages (db self') =
         messages (db self) ++
         [{| row_id := messages_seq (db self) + 1; contact_id := None;
             recipient := recipient; message := message;
             status := "failed"; gateway := gateway_name;
             message_id := None; scheduled_at := None; sent_at := None;
             created_at := now |}]
    /\ logs (db self') =
         logs (db self) ++
         [{| log_id := logs_seq (db self) + 1;
             log_message_id := messages_seq (db self) + 1;
             log_status := "failed"; log_details := str e;
             log_created_at := now |}].
Proof.
  intros Hwf Hg Hsend Hid. pose proof (wf_db_fresh _ Hwf) as Hfresh.
  destruct Hwf as (_ & _ & Hseq).
  unfold send_immediate_sms. rewrite Hg. simpl. unfold attempt.
  destruct (send_sms g recipient message (wire self)) as [sent wire'].
  simpl in Hsend. subst sent. simpl.
  assert (Hstep :
    (gid ← gateway_message_id_of result;
     d1 ← update_message_status
            (log_message (db self) recipient message gateway_name "pending"
               None None now).2
            (messages_seq (db self) + 1) "sent" gid now;
     mret (result,
           add_log_entry d1 (messages_seq (db self) + 1) "sent"
             (json_dumps result) now)) = Raise e).
  { destruct Hid as [->|(gid & -> & Ht & Hb)]; [reflexivity|].
    simpl. unfold update_message_status. rewrite Ht, Hb. reflexivity. }
  simpl in Hstep. rewrite Hstep.
  destruct (Z.eqb_spec (messages_seq (db self) + 1) 0) as [E|_]; [lia|].
  simpl. eexists. split; [reflexivity|]. simpl.
  rewrite update_where_id_app, update_where_id_absent by exact Hfresh.
  simpl. rewrite Z.eqb_refl. split; reflexivity.
Qed.

(** X3.  [send_immediate_sms] makes one attempt and never a second one:
    whatever the outcome -- accepted, rejected, unreachable, or failed
    while recording -- the wire grows by the one request of the gateway's
    [send_sms]; with an unknown gateway name nothing is sent.  The
    registry is never changed. *)
Theorem send_immediate_sms_single_request (self : SMSMessenger)
    (gateway_name recipient message : string) (now : Z) :
  let self' :=
    (send_immediate_sms self gateway_name recipient message now).2 in
  gateways self' = gateways self
  /\ wire self' =
       wire self ++
       match gateways self !! gateway_name with
       | Some g => option_list (send_sms_request g recipient message)
       | None => []
       end.
Proof.
  unfold send_immediate_sms.
  destruct (gateways self !! gateway_name) as [g|];
    [|simpl; rewrite app_nil_r; split; reflexivity].
  destruct (log_message (db self) recipient message gateway_name "pending"
              None None now) as [key d].
  pose proof (attempt_wire g key recipient message now d (wire self)) as Hw.
  destruct (attempt g key recipient message now d (wire self))
    as [[[result d']|e] wire']; cbn [snd] in Hw; subst wire'.
  - split; reflexivity.
  - destruct (key =? 0); [split; reflexivity|].
    destruct (record_failure d key e now); split; reflexivity.
Qed.

Lemma log_message_wf d recipient message gateway st scheduled contact now :
  wf_db d ->
  wf_db (log_message d recipient message gateway st scheduled contact now).2.
Proof.
  intros Hwf. pose proof (wf_db_fresh _ Hwf) as Hfresh.
  destruct Hwf as (Hnd & Hle & Hseq). unfold wf_db. simpl.
  split; [|split; [|lia]].
  - rewrite map_app. apply NoDup_app. split; [exact Hnd|]. split.
    + intros key Hkey Hnew. apply list_elem_of_In in Hnew as [Hnew|[]].
      simpl in Hnew. subst key.
      apply list_elem_of_In, in_map_iff in Hkey as (m & E & Hm).
      rewrite Forall_forall in Hfresh.
      apply (Hfresh m); [apply list_elem_of_In, Hm | exact E].
    + simpl. apply NoDup_singleton.
  - apply Forall_app. split.
    + eapply Forall_impl; [exact Hle|]. simpl. intros m Hm. lia.
    + apply Forall_singleton. simpl. lia.
Qed.

Lemma row_with_id_fresh d :
  wf_db d -> row_with_id (messages d) (messages_seq d + 1) = None.
Proof.
  intros Hwf. pose proof (wf_db_fresh _ Hwf) as Hfresh.
  destruct (row_with_id (messages d) (messages_seq d + 1)) as [m|] eqn:E;
    [|reflexivity].
  apply row_with_id_Some in E as [Hin Hid].
  rewrite Forall_forall in Hfresh.
  destruct (Hfresh m (proj2 (list_elem_of_In _ _) Hin) Hid).
Qed.

(** X4.  On a table with unique keys [log_message] returns a key larger
    than every key in use; looking that key up afterwards gives the row
    just written, with [message_id] and [sent_at] unset; every other key
    looks up as before; the keys stay unique. *)
Theorem log_message_lookup (d : SMSDatabase)
    (recipient message gateway status : string) (scheduled_at : option Z)
    (contact_id : option Z) (now : Z) :
  wf_db d ->
  let '(key, d') :=
    log_message d recipient message gateway status scheduled_at contact_id
      now in
  Forall (fun m => row_id m < key) (messages d)
  /\ row_with_id (messages d') key =
       Some {| row_id := key; contact_id := contact_id;
               recipient := recipient; message := message;
               status := status; gateway := gateway; message_id := None;
               scheduled_at := scheduled_at; sent_at := None;
               created_at := now |}
  /\ (forall other, other <> key ->
        row_with_id (messages d') other = row_with_id (messages d) other)
  /\ logs d' = logs d
  /\ wf_db d'.
Proof.
  intros Hwf. pose proof (row_with_id_fresh d Hwf) as Hnone.
  pose proof (log_message_wf d recipient message gateway status scheduled_at
                contact_id now Hwf) as Hwf'.
  unfold log_message in *. cbn [snd] in Hwf'. split; [|split; [|split]].
  - destruct Hwf as (_ & Hle & _). eapply Forall_impl; [exact Hle|].
    simpl. intros m Hm. lia.
  - simpl. rewrite row_with_id_app_fresh, Hnone. simpl.
    rewrite Z.eqb_refl. reflexivity.
  - intros other Ho. simpl. rewrite row_with_id_app_fresh.
    destruct (row_with_id (messages d) other); [reflexivity|]. simpl.
    destruct (Z.eqb_spec (messages_seq d + 1) other); [congruence|reflexivity].
  - split; [reflexivity | exact Hwf'].
Qed.

(** X5.  With a registered gateway name [schedule_sms] returns the key of
    a new row with status ['scheduled'] and [scheduled_at = schedule_time],
    whether that time is ahead or past; nothing is sent and no log row is
    written. *)
Theorem schedule_sms_effect (self : SMSMessenger)
    (gateway_name recipient message : string) (schedule_time now : Z)
    (g : SMSGateway) :
  wf_db (db self) ->
  gateways self !! gateway_name = Some g ->
  exists self',
    schedule_sms self gateway_name recipient message schedule_time now
      = (Return (messages_seq (db self) + 1), self')
    /\ messages (db self') =
         messages (db self) ++
         [{| row_id := messages_seq (db self) + 1; contact_id := None;
             recipient := recipient; message := message;
             status := "scheduled"; gateway := gateway_name;
             message_id := None; scheduled_at := Some schedule_time;
             sent_at := None; created_at := now |}]
    /\ ~ In (messages_seq (db self) + 1) (map row_id (messages (db self)))
    /\ logs (db self') = logs (db self)
    /\ wire self' = wire self
    /\ gateways self' = gateways self.
Proof.
  intros Hwf Hg. pose proof (wf_db_fresh _ Hwf) as Hfresh.
  unfold schedule_sms. rewrite Hg. simpl. eexists. split; [reflexivity|].
  simpl. repeat split.
  intros Hin. apply in_map_iff in Hin as (m & Hm & Hin).
  rewrite Forall_forall in Hfresh. apply (Hfresh m); [|exact Hm].
  apply list_elem_of_In, Hin.
Qed.

(** X6.  With a gateway name that is not in the registry, [schedule_sms],
    [check_delivery_status] and [get_gateway_balance] raise the
    [ValueError] "Gateway ... not configured" and leave the engine as it
    was: no row is written and no request is made. *)
Theorem unregistered_gateway_is_refused (self : SMSMessenger)
    (gateway_name recipient message provider_message_id : string)
    (schedule_time now : Z) :
  gateways self !! gateway_name = None ->
  schedule_sms self gateway_name recipient message schedule_time now
    = (Raise (ValueError ("Gateway " +:+ gateway_name +:+ " not configured")),
       self)
  /\ check_delivery_status self provider_message_id gateway_name
     = (Raise (ValueError ("Gateway " +:+ gateway_name +:+ " not configured")),
        self)
  /\ get_gateway_balance self gateway_name
     = (Raise (ValueError ("Gateway " +:+ gateway_name +:+ " not configured")),
        self).
Proof using Type.
  intros H. unfold schedule_sms, check_delivery_status, get_gateway_balance.
  rewrite H. repeat split.
Qed.

(** X7.  [update_message_status] on a key that no row has changes
    nothing: the [UPDATE] matches no row, so the database is as it was
    whenever the call returns.  For a key within 64 bits, which [sqlite3]
    binds, the call does return whenever the identifier argument is
    missing or false. *)
Theorem update_message_status_unknown_key (d : SMSDatabase)
    (db_message_id : Z) (status : string) (gateway_message_id : json)
    (now : Z) :
  row_with_id (messages d) db_message_id = None ->
  (- 2 ^ 63 <= db_message_id < 2 ^ 63 ->
   truthy gateway_message_id = false ->
   update_message_status d db_message_id status gateway_message_id now
     = Return d)
  /\ (forall d',
        update_message_status d db_message_id status gateway_message_id now
          = Return d' ->
        d' = d).
Proof.
  intros Hnone.
  assert (Hsame : forall set,
             with_messages d (update_where_id db_message_id set (messages d))
             = d).
  { intros set. rewrite update_where_id_absent.
    - destruct d. reflexivity.
    - apply Forall_forall. intros m Hm E.
      apply list_elem_of_In in Hm.
      unfold row_with_id in Hnone.
      pose proof (find_none _ _ Hnone m Hm) as Hn. simpl in Hn. lia. }
  unfold update_message_status. split.
  - intros _ ->. simpl. rewrite Hsame. reflexivity.
  - intros d'. destruct (truthy gateway_message_id).
    + destruct (bind_text gateway_message_id); simpl; [|discriminate].
      rewrite Hsame. intros [= <-]. reflexivity.
    + simpl. rewrite Hsame. intros [= <-]. reflexivity.
Qed.

(** ** The rows and the audit trail along a run *)


(** What [send_immediate_sms] leaves in the tables, whatever the
    outcome. *)
Lemma send_immediate_sms_tables self gateway_name recipient message now g :
  wf_db (db self) ->
  gateways self !! gateway_name = Some g ->
  exists st det m',
    delivered now
      (new_row (messages_seq (db self) + 1) recipient message gateway_name
         "pending" None now) st m'
    /\ messages (db (send_immediate_sms self gateway_name recipient message
                       now).2)
       = messages (db self) ++ [m']
    /\ logs (db (send_immediate_sms self gateway_name recipient message
                   now).2)
       = logs (db self) ++
         [new_log (logs_seq (db self) + 1) (messages_seq (db self) + 1) st
            det now].
Proof.
  intros Hwf Hg. pose proof (wf_db_fresh _ Hwf) as Hfresh.
  destruct (send_immediate_sms_registered self gateway_name recipient message
              now g ltac:(apply Hwf) Hg)
    as (st & set & det & Hset & Hrows & Hlogs & _).
  exists st, det, (set (new_row (messages_seq (db self) + 1) recipient
                          message gateway_name "pending" None now)).
  split; [apply Hset|]. split.
  - rewrite Hrows. simpl.
    rewrite update_where_id_app, update_where_id_absent by exact Hfresh.
    simpl. rewrite Z.eqb_refl. reflexivity.
  - rewrite Hlogs. reflexivity.
Qed.

Lemma row_shape_no_pending now d :
  Forall row_shape (messages d) -> get_pending_messages d now = [].
Proof.
  unfold get_pending_messages. induction 1 as [|m rows Hm _ IH]; simpl.
  - reflexivity.
  - unfold is_pending at 1.
    destruct (String.eqb_spec (status m) "pending") as [E|_];
      [|exact IH].
    exfalso. destruct Hm as [(H & _)|([H|H] & _)]; rewrite E in H;
      discriminate.
Qed.

Lemma run_row_shape self op :
  wf_db (db self) -> Forall row_shape (messages (db self)) ->
  Forall row_shape (messages (db (run self op))).
Proof.
  intros Hwf Hshape.
  destruct op as [name g|name rc msg now|name rc msg t now|now]; simpl.
  - exact Hshape.
  - destruct (gateways self !! name) as [g|] eqn:Hg.
    + destruct (send_immediate_sms_tables self name rc msg now g Hwf Hg)
        as (st & det & m' & Hd & -> & _).
      apply Forall_app. split; [exact Hshape|]. apply Forall_singleton.
      right. destruct Hd; simpl; auto.
    + unfold send_immediate_sms. rewrite Hg. exact Hshape.
  - unfold schedule_sms. destruct (gateways self !! name) as [g|].
    + simpl. apply Forall_app. split; [exact Hshape|].
      apply Forall_singleton. left. simpl. eauto.
    + exact Hshape.
  - unfold process_scheduled_messages.
    rewrite (row_shape_no_pending now _ Hshape). exact Hshape.
Qed.

Lemma run_all_row_shape ops : forall self,
  inv self -> Forall row_shape (messages (db self)) ->
  Forall row_shape (messages (db (run_all self ops))).
Proof.
  unfold run_all. induction ops as [|op ops IH]; intros self Hinv Hshape.
  - exact Hshape.
  - simpl. apply IH.
    + apply run_inv, Hinv.
    + apply run_row_shape; [apply Hinv | exact Hshape].
Qed.

(** X8.  In every state that a run of [add_gateway], [send_immediate_sms],
    [schedule_sms] and [process_scheduled_messages] calls reaches from a
    new messenger, each message row is either ['scheduled'], with its
    scheduled time and neither identifier nor [sent_at], or ['sent'] or
    ['failed'] without a scheduled time; no row is ['pending'].  So
    [get_pending_messages] finds nothing at any time, and a drain pass
    returns with the engine as it was: it sends nothing. *)
Theorem runs_leave_nothing_due (ops : list operation) (now : Z) :
  Forall
    (fun m =>
       (status m = "scheduled" /\ is_Some (scheduled_at m)
        /\ sent_at m = None /\ message_id m = None)
       \/ ((status m = "sent" \/ status m = "failed")
           /\ scheduled_at m = None))
    (messages (db (run_all new_messenger ops)))
  /\ get_pending_messages (db (run_all new_messenger ops)) now = []
  /\ process_scheduled_messages (run_all new_messenger ops) now
     = (Return tt, run_all new_messenger ops).
Proof.
  assert (Hshape : Forall row_shape (messages (db (run_all new_messenger ops))))
    by (apply run_all_row_shape; [apply inv_new_messenger | constructor]).
  split; [exact Hshape|].
  pose proof (row_shape_no_pending now _ Hshape) as Hnone.
  split; [exact Hnone|].
  unfold process_scheduled_messages. rewrite Hnone. reflexivity.
Qed.










(** ** More on the drain pass *)














(** ** Queries to a gateway *)

(** X12.  When the backend answers the request of a
    [get_delivery_status] call with response [r], either gateway returns
    the decoded body exactly when the status code is 200, and under any
    other status code raises an [Exception] whose text carries the
    response body.  The call puts exactly one [GET] request on the wire,
    whose URL ends with the message identifier. *)
Theorem get_delivery_status_status_code (wire : list request) (r : response)
    (provider_message_id : string) :
  net (length wire) = Reply r ->
  (forall account_sid auth_token sender_id,
     let got := get_delivery_status
                  (TwilioGateway account_sid auth_token sender_id)
                  provider_message_id wire in
     (forall payload,
        got.1 = Return payload <->
        status_code r = 200 /\ decoded r = Some payload)
     /\ (status_code r <> 200 ->
         got.1 = Raise (Exception ("Twilio API error: " +:+ text r)))
     /\ got.2 =
          wire ++
          [{| method := GET;
              url := "https://api.twilio.com/2010-04-01/Accounts/"
                       +:+ account_sid +:+ "/Messages/"
                       +:+ provider_message_id +:+ ".json";
              body := NoBody; auth := (account_sid, auth_token) |}])
  /\ (forall auth_id auth_token sender_id,
       let got := get_delivery_status
                    (PlivoGateway auth_id auth_token sender_id)
                    provider_message_id wire in
       (forall payload,
          got.1 = Return payload <->
          status_code r = 200 /\ decoded r = Some payload)
       /\ (status_code r <> 200 ->
           got.1 = Raise (Exception ("Plivo API error: " +:+ text r)))
       /\ got.2 =
            wire ++
            [{| method := GET;
                url := "https://api.plivo.com/v1/Account/" +:+ auth_id
                         +:+ "/Message/" +:+ provider_message_id +:+ "/";
                body := NoBody; auth := (auth_id, auth_token) |}]).
Proof.
  intros Hnet. split.
  - intros account_sid auth_token sender_id. simpl. unfold http.
    rewrite Hnet. simpl. split; [|split].
    + intros payload. apply expect_Return.
    + apply (expect_other_code 200 "Twilio").
    + reflexivity.
  - intros auth_id auth_token sender_id. simpl. unfold http.
    rewrite Hnet. simpl. split; [|split].
    + intros payload. apply expect_Return.
    + apply (expect_other_code 200 "Plivo").
    + reflexivity.
Qed.

Lemma balance_field_Reply key who r :
  (status_code r <> 200 ->
   balance_field key (expect 200 who (Reply r))
   = Raise (Exception (who +:+ " API error: " +:+ text r)))
  /\ (status_code r = 200 ->
      (decoded r = None ->
       balance_field key (expect 200 who (Reply r))
       = Raise (JSONDecodeError (text r)))
      /\ (forall fields, decoded r = Some (JObj fields) ->
            balance_field key (expect 200 who (Reply r))
            = match assoc key fields with
              | Some v => to_float v
              | None => Raise (KeyError key)
              end)).
Proof using Type.
  unfold balance_field. split.
  - intros H. rewrite expect_other_code by exact H. reflexivity.
  - intros H. unfold expect, response_json. rewrite H. simpl. split.
    + intros ->. reflexivity.
    + intros fields ->. simpl. destruct (assoc key fields); reflexivity.
Qed.

(** X13.  When the backend answers the request of a [get_balance] call
    with response [r]: under a status code other than 200 the gateway
    raises an [Exception] whose text carries the response body; under 200
    with a JSON object it returns [float] of the field ['balance'] (Twilio)
    or ['cash_credits'] (Plivo), and raises [KeyError] when that field is
    missing; under 200 with a body that does not decode it raises the
    decoder's error. *)
Theorem get_balance_status_code (wire : list request) (r : response) :
  net (length wire) = Reply r ->
  (forall account_sid auth_token sender_id,
     let got := (get_balance (TwilioGateway account_sid auth_token sender_id)
                   wire).1 in
     (status_code r <> 200 ->
      got = Raise (Exception ("Twilio API error: " +:+ text r)))
     /\ (status_code r = 200 ->
         (decoded r = None -> got = Raise (JSONDecodeError (text r)))
         /\ (forall fields, decoded r = Some (JObj fields) ->
               got = match assoc "balance" fields with
                     | Some v => to_float v
                     | None => Raise (KeyError "balance")
                     end)))
  /\ (forall auth_id auth_token sender_id,
       let got := (get_balance (PlivoGateway auth_id auth_token sender_id)
                     wire).1 in
       (status_code r <> 200 ->
        got = Raise (Exception ("Plivo API error: " +:+ text r)))
       /\ (status_code r = 200 ->
           (decoded r = None -> got = Raise (JSONDecodeError (text r)))
           /\ (forall fields, decoded r = Some (JObj fields) ->
                 got = match assoc "cash_credits" fields with
                       | Some v => to_float v
                       | None => Raise (KeyError "cash_credits")
                       end))).
Proof using Type.
  intros Hnet. split.
  - intros account_sid auth_token sender_id. simpl. unfold http.
    rewrite Hnet. simpl. apply (balance_field_Reply "balance" "Twilio").
  - intros auth_id auth_token sender_id. simpl. unfold http.
    rewrite Hnet. simpl. apply (balance_field_Reply "cash_credits" "Plivo").
Qed.

(** ** The contact directory *)

Lemma phone_taken_In phone rows :
  phone_taken phone rows = true <-> In phone (map contact_phone rows).
Proof.
  unfold phone_taken. rewrite existsb_exists, in_map_iff. split.
  - intros (c & Hc & E). exists c. apply String.eqb_eq in E. auto.
  - intros (c & E & Hc). exists c. split; [exact Hc|].
    apply String.eqb_eq, E.
Qed.

Lemma add_contact_phones t name phone email group now key_reused :
  forall p, In p (map contact_phone (contacts t)) ->
  In p (map contact_phone
          (contacts (add_contact t name phone email group now key_reused).2)).
Proof.
  intros p Hp. unfold add_contact.
  destruct (phone_taken phone (contacts t)); simpl; [exact Hp|].
  rewrite map_app. apply in_or_app. left. exact Hp.
Qed.

Lemma add_contacts_phones calls : forall t p,
  In p (map contact_phone (contacts t)) ->
  In p (map contact_phone (contacts (add_contacts t calls))).
Proof.
  unfold add_contacts. induction calls as [|c calls IH]; intros t p Hp.
  - exact Hp.
  - simpl. apply IH, add_contact_phones, Hp.
Qed.

(** X14.  A phone number that is stored stays taken: after any further
    [add_contact] calls, [add_contact] with that phone raises the
    [ValueError] "Contact with phone ... already exists" and writes no
    row. *)
Theorem add_contact_phone_stays_taken (t : ContactsTable)
    (calls : list contact_call) (name phone : string)
    (email group : option string) (now : Z) (key_reused : bool) :
  In phone (map contact_phone (contacts t)) ->
  let t' := add_contacts t calls in
  (add_contact t' name phone email group now key_reused).1
    = Raise (ValueError
               ("Contact with phone " +:+ phone +:+ " already exists"))
  /\ contacts (add_contact t' name phone email group now key_reused).2
     = contacts t'.
Proof.
  intros Hp t'. pose proof (add_contacts_phones calls t phone Hp) as Hp'.
  apply phone_taken_In in Hp'. fold t' in Hp'.
  unfold add_contact. rewrite Hp'. split; reflexivity.
Qed.

Lemma add_contact_inv t name phone email group now key_reused :
  NoDup (map contact_phone (contacts t)) ->
  StronglySorted Z.lt (map contact_row_id (contacts t)) ->
  Forall (fun c => 1 <= contact_row_id c <= contacts_seq t) (contacts t) ->
  0 <= contacts_seq t ->
  let t' := (add_contact t name phone email group now key_reused).2 in
  NoDup (map contact_phone (contacts t'))
  /\ StronglySorted Z.lt (map contact_row_id (contacts t'))
  /\ Forall (fun c => 1 <= contact_row_id c <= contacts_seq t') (contacts t')
  /\ 0 <= contacts_seq t'.
Proof.
  intros Hnd Hsorted Hle Hseq. unfold add_contact.
  destruct (phone_taken phone (contacts t)) eqn:Htaken; simpl.
  - split; [exact Hnd|]. split; [exact Hsorted|]. split.
    + eapply Forall_impl; [exact Hle|]. simpl. intros c Hc.
      destruct key_reused; lia.
    + destruct key_reused; lia.
  - split; [|split; [|split; [|lia]]].
    + rewrite map_app. apply NoDup_app. split; [exact Hnd|]. split.
      * intros p Hp Hnew. apply list_elem_of_In in Hnew as [Hnew|[]].
        simpl in Hnew. subst p.
        apply list_elem_of_In, phone_taken_In in Hp. congruence.
      * apply NoDup_singleton.
    + rewrite map_app. simpl. clear Hnd Htaken.
      induction (contacts t) as [|c rows IH]; simpl.
      * repeat constructor.
      * apply StronglySorted_inv in Hsorted as [Hs Hc].
        apply Forall_cons in Hle as [Hc1 Hle].
        constructor; [apply IH; assumption|].
        rewrite Forall_app. split; [exact Hc|].
        apply Forall_singleton. lia.
    + apply Forall_app. split.
      * eapply Forall_impl; [exact Hle|]. simpl. intros c Hc. lia.
      * apply Forall_singleton. simpl. lia.
Qed.

(** X15.  Whatever [add_contact] calls are made on an empty directory,
    accepted or refused, no two contacts share a phone number, and the
    keys of the contacts are positive and strictly increasing in the order
    of insertion. *)
Theorem contacts_stay_unique (calls : list contact_call) :
  let t := add_contacts no_contacts calls in
  NoDup (map contact_phone (contacts t))
  /\ StronglySorted Z.lt (map contact_row_id (contacts t))
  /\ Forall (fun c => 1 <= contact_row_id c <= contacts_seq t) (contacts t).
Proof.
  assert (H : forall t,
    NoDup (map contact_phone (contacts t)) ->
    StronglySorted Z.lt (map contact_row_id (contacts t)) ->
    Forall (fun c => 1 <= contact_row_id c <= contacts_seq t) (contacts t) ->
    0 <= contacts_seq t ->
    let t' := add_contacts t calls in
    NoDup (map contact_phone (contacts t'))
    /\ StronglySorted Z.lt (map contact_row_id (contacts t'))
    /\ Forall (fun c => 1 <= contact_row_id c <= contacts_seq t')
         (contacts t')).
  { unfold add_contacts. induction calls as [|c calls IH];
      intros t H1 H2 H3 H4; simpl.
    - auto.
    - destruct (add_contact_inv t (call_name c) (call_phone c) (call_email c)
                  (call_group c) (call_now c) (call_key_reused c)
                  H1 H2 H3 H4) as (H1' & H2' & H3' & H4').
      apply IH; assumption. }
  apply H; simpl; try constructor. lia.
Qed.

(** X16.  [add_contact] with a phone number that no contact has returns
    a new key and adds the contact at the end of the directory; the
    unfiltered [get_contacts] then lists it last, a [get_contacts] for a
    non-empty group lists it exactly when it was stored with that group,
    and the other contacts are listed as before. *)
Theorem add_contact_then_get_contacts (t : ContactsTable)
    (name phone : string) (email group : option string) (now : Z)
    (key_reused : bool) :
  ~ In phone (map contact_phone (contacts t)) ->
  let c := {| contact_row_id := contacts_seq t + 1; contact_name := name;
              contact_phone := phone; contact_email := email;
              contact_group_name := group; contact_created_at := now |} in
  exists t',
    add_contact t name phone email group now key_reused
      = (Return (contacts_seq t + 1), t')
    /\ get_contacts t' None = get_contacts t None ++ [c]
    /\ forall g, g <> ""%string ->
         get_contacts t' (Some g) =
         get_contacts t (Some g) ++ (if in_group g c then [c] else []).
Proof.
  intros Hfree c. unfold add_contact.
  destruct (phone_taken phone (contacts t)) eqn:Htaken.
  - apply phone_taken_In in Htaken. contradiction.
  - eexists. split; [reflexivity|]. split; [reflexivity|].
    intros g Hg. unfold get_contacts, truthy_opt.
    destruct (String.eqb_spec g ""); [contradiction|]. simpl.
    rewrite List.filter_app. reflexivity.
Qed.

(** X17.  [get_contacts] filters only on a non-empty group: with no group
    or with the empty string it lists every contact; with a non-empty
    group it lists, in order, exactly the contacts stored with that group,
    so a contact stored without a group is in no group's list. *)
Theorem get_contacts_group (t : ContactsTable) :
  get_contacts t None = contacts t
  /\ get_contacts t (Some ""%string) = contacts t
  /\ forall g, g <> ""%string ->
       get_contacts t (Some g) =
       List.filter (fun c => bool_decide (contact_group_name c = Some g))
         (contacts t).
Proof.
  split; [reflexivity|]. split; [reflexivity|].
  intros g Hg. unfold get_contacts, truthy_opt.
  destruct (String.eqb_spec g ""); [contradiction|]. simpl.
  apply filter_ext. intros c. unfold in_group.
  destruct (contact_group_name c) as [g'|].
  - destruct (String.eqb_spec g' g) as [->|Hne].
    + symmetry. apply bool_decide_eq_true. reflexivity.
    + symmetry. apply bool_decide_eq_false. congruence.
  - symmetry. apply bool_decide_eq_false. discriminate.
Qed.

(** X18.  When [send_sms] returns a dict [result] in which neither
    ['sid'] nor ['message_uuid'] holds a true value, [send_immediate_sms]
    still returns [result] and marks the new message ['sent'], with its
    ['sent'] log row, but records no identifier and leaves [sent_at]
    unset. *)
Theorem send_immediate_sms_accepted_without_id (self : SMSMessenger)
    (gateway_name recipient message : string) (now : Z) (g : SMSGateway)
    (result gid : json) :
  wf_db (db self) ->
  gateways self !! gateway_name = Some g ->
  (send_sms g recipient message (wire self)).1 = Return result ->
  gateway_message_id_of result = Return gid ->
  truthy gid = false ->
  exists self',
    send_immediate_sms self gateway_name recipient message now
      = (Return result, self')
    /\ messages (db self') =
         messages (db self) ++
         [{| row_id := messages_seq (db self) + 1; contact_id := None;
             recipient := recipient; message := message;
             status := "sent"; gateway := gateway_name;
             message_id := None; scheduled_at := None;
             sent_at := None; created_at := now |}]
    /\ logs (db self') =
         logs (db self) ++
         [{| log_id := logs_seq (db self) + 1;
             log_message_id := messages_seq (db self) + 1;
             log_status := "sent"; log_details := json_dumps result;
             log_created_at := now |}].
Proof.
  intros Hwf Hg Hsend Hgid Ht. pose proof (wf_db_fresh _ Hwf) as Hfresh.
  unfold send_immediate_sms. rewrite Hg. simpl. unfold attempt.
  destruct (send_sms g recipient message (wire self)) as [sent wire'].
  simpl in Hsend. subst sent. simpl. rewrite Hgid. simpl.
  unfold update_message_status. rewrite Ht. simpl.
  eexists. split; [reflexivity|]. simpl.
  rewrite update_where_id_app, update_where_id_absent by exact Hfresh.
  simpl. rewrite Z.eqb_refl. split; reflexivity.
Qed.

End Backend.

(** ** The due-work query and deferred messages *)

(** C1 (defect of the program).  A message that [schedule_sms] stores with
    a time in the past is kept with status ['scheduled'], and
    [get_pending_messages] selects rows with status ['pending'] only: the
    message is not in the result of the query at the time of the next
    pass, nor at any later time, and a drain pass leaves the engine as it
    was. *)
Theorem scheduled_in_the_past_is_not_due :
  let self := (schedule_sms twilio_messenger "twilio" "+15551230000" "hi"
                 50 100).2 in
  messages (db self) =
    [{| row_id := 1; contact_id := None; recipient := "+15551230000";
        message := "hi"; status := "scheduled"; gateway := "twilio";
        message_id := None; scheduled_at := Some 50; sent_at := None;
        created_at := 100 |}]
  /\ get_pending_messages (db self) 100 = []
  /\ (forall now, get_pending_messages (db self) now = [])
  /\ process_scheduled_messages net_accepting self 100 = (Return tt, self).
Proof. repeat split. Qed.

(** ** Counterexamples *)

(** C2 as stated fails: Twilio is registered, the backend accepts the
    message with status code 201 and a payload that holds neither ['sid']
    nor ['message_uuid'].  After [send_immediate_sms] the only message row
    has status ['sent'] while [sent_at] and [message_id] are both unset. *)
Lemma sent_without_sent_at :
  messages
    (db (run_all net_without_id new_messenger
           [RegisterProvider "twilio" sample_twilio;
            SendNow "twilio" "+15551230000" "hi" 100]))
  = [{| row_id := 1; contact_id := None; recipient := "+15551230000";
        message := "hi"; status := "sent"; gateway := "twilio";
        message_id := None; scheduled_at := None; sent_at := None;
        created_at := 100 |}].
Proof. reflexivity. Qed.

(** C8 as stated fails: the empty string is supplied as
    [gateway_message_id]; the row changes in its status only, no
    identifier is recorded and [sent_at] is not stamped. *)
Lemma empty_identifier_is_not_recorded :
  let d := (log_message empty_db "+15551230000" "hi" "twilio" "pending" None
              None 10).2 in
  exists d',
    update_message_status d 1 "sent" (JStr "") 20 = Return d'
    /\ messages d' =
       [{| row_id := 1; contact_id := None; recipient := "+15551230000";
           message := "hi"; status := "sent"; gateway := "twilio";
           message_id := None; scheduled_at := None; sent_at := None;
           created_at := 10 |}].
Proof. eexists. split; reflexivity. Qed.

(** ** The theorems at work on the sample data *)

Lemma wf_db_two_pending : wf_db two_pending.
Proof.
  unfold wf_db. vm_compute. split; [|split; [|discriminate]].
  - repeat constructor; rewrite list_elem_of_In; simpl; intuition discriminate.
  - repeat constructor; discriminate.
Qed.

(** A reply whose identifier is [NaN] leaves the row ['sent'] with
    [sent_at] set and no identifier. *)
Lemma sent_at_without_identifier :
  messages
    (db (run_all net_nan_id new_messenger
           [RegisterProvider "twilio" sample_twilio;
            SendNow "twilio" "+15551230000" "hi" 100]))
  = [{| row_id := 1; contact_id := None; recipient := "+15551230000";
        message := "hi"; status := "sent"; gateway := "twilio";
        message_id := None; scheduled_at := None; sent_at := Some 100;
        created_at := 100 |}].
Proof. reflexivity. Qed.

Lemma sent_columns_go_together_witness :
  let ops := [RegisterProvider "twilio" sample_twilio;
              RegisterProvider "plivo" sample_plivo;
              SendNow "twilio" "+15551230000" "hi" 100;
              SendNow "plivo" "+15551230001" "hello" 110] in
  let m := {| row_id := 2; contact_id := None; recipient := "+15551230001";
              message := "hello"; status := "sent"; gateway := "plivo";
              message_id := Some "5b40a428"; scheduled_at := None;
              sent_at := Some 110; created_at := 110 |} in
  In m (messages (db (run_all net_first_rejected new_messenger ops)))
  /\ (is_Some (message_id m) -> is_Some (sent_at m))
  /\ (is_Some (sent_at m) -> status m = "sent")
  /\ (is_Some (sent_at m) -> is_Some (message_id m))
  /\ (status m = "sent" -> is_Some (sent_at m)).
Proof.
  intros ops m.
  assert (H : In m (messages (db (run_all net_first_rejected new_messenger
                                    ops))))
    by (vm_compute; right; left; reflexivity).
  assert (Hid : forall k r payload gid,
             net_first_rejected k = Reply r ->
             status_code r = 201 \/ status_code r = 202 ->
             decoded r = Some payload ->
             gateway_message_id_of payload = Return gid ->
             truthy gid = true).
  { intros [|k] r payload gid [= <-]; simpl.
    - intros [E|E]; discriminate.
    - intros _ [= <-] [= <-]. reflexivity. }
  assert (Hstored : forall k r payload gid,
             net_first_rejected k = Reply r ->
             status_code r = 201 \/ status_code r = 202 ->
             decoded r = Some payload ->
             gateway_message_id_of payload = Return gid ->
             truthy gid = true -> bind_text gid <> Return None).
  { intros [|k] r payload gid [= <-]; simpl.
    - intros [E|E]; discriminate.
    - intros _ [= <-] [= <-] _. discriminate. }
  split; [exact H|].
  destruct (sent_columns_go_together net_first_rejected ops m H)
    as (H1 & H2 & H3 & H4).
  split; [exact H1|]. split; [exact H2|].
  split; [exact (H3 Hstored) | exact (H4 Hid)].
Defined.



Lemma send_immediate_sms_unregistered_witness :
  gateways new_messenger !! "twilio" = None
  /\ send_immediate_sms net_accepting new_messenger "twilio" "+15551230000"
       "hi" 100
     = (Raise (ValueError "Gateway twilio not configured"), new_messenger).
Proof.
  split; [reflexivity|].
  apply (send_immediate_sms_unregistered net_accepting new_messenger "twilio"
           "+15551230000" "hi" 100).
  reflexivity.
Defined.



Lemma update_message_status_effect_witness :
  let d := (log_message empty_db "+15551230000" "hi" "twilio" "pending" None
              None 10).2 in
  let m := {| row_id := 1; contact_id := None; recipient := "+15551230000";
              message := "hi"; status := "pending"; gateway := "twilio";
              message_id := None; scheduled_at := None; sent_at := None;
              created_at := 10 |} in
  row_with_id (messages d) 1 = Some m
  /\ (exists d',
        update_message_status d 1 "sent" (JStr "SM0001") 20 = Return d'
        /\ row_with_id (messages d') 1
           = Some {| row_id := 1; contact_id := None;
                     recipient := "+15551230000"; message := "hi";
                     status := "sent"; gateway := "twilio";
                     message_id := Some "SM0001"; scheduled_at := None;
                     sent_at := Some 20; created_at := 10 |})
  /\ update_message_status d 1 "sent" (JArr [JStr "5b40a428"]) 20
     = Raise (ProgrammingError
                "Error binding parameter 2: type 'list' is not supported")
  /\ (exists d',
        update_message_status d 1 "failed" JNull 20 = Return d'
        /\ row_with_id (messages d') 1
           = Some {| row_id := 1; contact_id := None;
                     recipient := "+15551230000"; message := "hi";
                     status := "failed"; gateway := "twilio";
                     message_id := None; scheduled_at := None;
                     sent_at := None; created_at := 10 |}).
Proof.
  intros d m.
  assert (H : row_with_id (messages d) 1 = Some m) by reflexivity.
  split; [exact H|]. split; [|split].
  - destruct (update_message_status_effect d 1 "sent" (JStr "SM0001") 20 m H)
      as (Hsupplied & _ & _).
    destruct (Hsupplied eq_refl (Some "SM0001") eq_refl)
      as (d' & Hrun & Hrow & _).
    exists d'. split; [exact Hrun | exact Hrow].
  - destruct (update_message_status_effect d 1 "sent"
                (JArr [JStr "5b40a428"]) 20 m H) as (_ & Hrefused & _).
    apply Hrefused; reflexivity.
  - destruct (update_message_status_effect d 1 "failed" JNull 20 m H)
      as (_ & _ & Hmissing).
    destruct (Hmissing eq_refl) as (d' & Hrun & Hrow & _).
    exists d'. split; [exact Hrun | exact Hrow].
Defined.

Lemma send_sms_status_code_witness :
  net_accepting (length (@nil request)) = Reply reply_created
  /\ (send_sms net_accepting sample_twilio "+15551230000" "hi" []).1
     = Return (JObj [("sid", JStr "SM0001"); ("status", JStr "queued")])
  /\ (send_sms net_accepting sample_plivo "+15551230000" "hi" []).1
     = Raise (Exception "Plivo API error: created").
Proof.
  assert (H : net_accepting (length (@nil request)) = Reply reply_created)
    by reflexivity.
  split; [exact H|].
  destruct (send_sms_status_code net_accepting [] reply_created
              "+15551230000" "hi" H) as (Htwilio & Hplivo & _).
  split.
  - apply (Htwilio "AC0001" "secret" (Some "+15550001111")).
    split; reflexivity.
  - apply (Hplivo "MA0001" "secret" None). discriminate.
Defined.


Lemma send_immediate_sms_accepted_witness :
  let payload := JObj [("sid", JStr "SM0001"); ("status", JStr "queued")] in
  wf_db (db twilio_messenger)
  /\ gateways twilio_messenger !! "twilio" = Some sample_twilio
  /\ (send_sms net_accepting sample_twilio "+15551230000" "hi"
        (wire twilio_messenger)).1 = Return payload
  /\ gateway_message_id_of payload = Return (JStr "SM0001")
  /\ exists self',
       send_immediate_sms net_accepting twilio_messenger "twilio"
         "+15551230000" "hi" 100 = (Return payload, self')
       /\ status <$> messages (db self') = ["sent"]
       /\ message_id <$> messages (db self') = [Some "SM0001"]
       /\ sent_at <$> messages (db self') = [Some 100]
       /\ log_details <$> logs (db self') = [json_dumps payload].
Proof.
  intros payload.
  assert (Hwf : wf_db (db twilio_messenger)).
  { unfold wf_db. vm_compute. repeat split; try constructor. discriminate. }
  assert (Hg : gateways twilio_messenger !! "twilio" = Some sample_twilio)
    by reflexivity.
  assert (Hs : (send_sms net_accepting sample_twilio "+15551230000" "hi"
                  (wire twilio_messenger)).1 = Return payload)
    by reflexivity.
  assert (Hid : gateway_message_id_of payload = Return (JStr "SM0001"))
    by reflexivity.
  repeat (split; [assumption|]).
  destruct (send_immediate_sms_accepted net_accepting twilio_messenger
              "twilio" "+15551230000" "hi" 100 sample_twilio payload
              (JStr "SM0001") (Some "SM0001") Hwf Hg Hs Hid eq_refl eq_refl)
    as (self' & Hrun & Hrows & Hlogs).
  exists self'. rewrite Hrows, Hlogs. repeat split. exact Hrun.
Defined.

Lemma send_immediate_sms_accepted_not_recorded_witness :
  let payload := JObj [("message", JStr "message(s) queued");
                       ("message_uuid", JArr [JStr "5b40a428"])] in
  let e := ProgrammingError
             "Error binding parameter 2: type 'list' is not supported" in
  wf_db (db twilio_plivo_messenger)
  /\ gateways twilio_plivo_messenger !! "plivo" = Some sample_plivo
  /\ (send_sms net_queued_list sample_plivo "+15551230000" "hi"
        (wire twilio_plivo_messenger)).1 = Return payload
  /\ exists self',
       send_immediate_sms net_queued_list twilio_plivo_messenger "plivo"
         "+15551230000" "hi" 100 = (Raise e, self')
       /\ status <$> messages (db self') = ["failed"]
       /\ log_details <$> logs (db self') = [str e].
Proof.
  intros payload e.
  assert (Hwf : wf_db (db twilio_plivo_messenger)).
  { unfold wf_db. vm_compute. repeat split; try constructor. discriminate. }
  assert (Hg : gateways twilio_plivo_messenger !! "plivo" = Some sample_plivo)
    by reflexivity.
  assert (Hs : (send_sms net_queued_list sample_plivo "+15551230000" "hi"
                  (wire twilio_plivo_messenger)).1 = Return payload)
    by reflexivity.
  repeat (split; [assumption|]).
  destruct (send_immediate_sms_accepted_not_recorded net_queued_list
              twilio_plivo_messenger "plivo" "+15551230000" "hi" 100
              sample_plivo payload e Hwf Hg Hs)
    as (self' & Hrun & Hrows & Hlogs).
  { right. exists (JArr [JStr "5b40a428"]). repeat split. }
  exists self'. rewrite Hrows, Hlogs. repeat split. exact Hrun.
Defined.

Lemma log_message_lookup_witness :
  wf_db two_pending
  /\ row_with_id
       (messages
          (log_message two_pending "+15551230002" "hey" "twilio" "pending"
             None None 12).2) 3
     = Some {| row_id := 3; contact_id := None; recipient := "+15551230002";
               message := "hey"; status := "pending"; gateway := "twilio";
               message_id := None; scheduled_at := None; sent_at := None;
               created_at := 12 |}.
Proof.
  split; [exact wf_db_two_pending|].
  pose proof (log_message_lookup two_pending "+15551230002" "hey" "twilio"
                "pending" None None 12 wf_db_two_pending) as H.
  destruct (log_message two_pending "+15551230002" "hey" "twilio" "pending"
              None None 12) as [key d'] eqn:E.
  injection E as <- <-. apply H.
Defined.

Lemma schedule_sms_effect_witness :
  wf_db (db twilio_messenger)
  /\ gateways twilio_messenger !! "twilio" = Some sample_twilio
  /\ exists self',
       schedule_sms twilio_messenger "twilio" "+15551230000" "hi" 50 100
         = (Return 1, self')
       /\ status <$> messages (db self') = ["scheduled"]
       /\ scheduled_at <$> messages (db self') = [Some 50]
       /\ logs (db self') = []
       /\ wire self' = [].
Proof.
  assert (Hwf : wf_db (db twilio_messenger)).
  { unfold wf_db. vm_compute. repeat split; try constructor. discriminate. }
  assert (Hg : gateways twilio_messenger !! "twilio" = Some sample_twilio)
    by reflexivity.
  repeat (split; [assumption|]).
  destruct (schedule_sms_effect twilio_messenger "twilio" "+15551230000" "hi"
              50 100 sample_twilio Hwf Hg)
    as (self' & Hrun & Hrows & _ & Hlogs & Hwire & _).
  exists self'. rewrite Hrows, Hlogs, Hwire. repeat split. exact Hrun.
Defined.

Lemma unregistered_gateway_is_refused_witness :
  gateways twilio_messenger !! "plivo" = None
  /\ (get_gateway_balance net_balance string sample_float twilio_messenger
        "plivo").1
     = Raise (ValueError "Gateway plivo not configured")
  /\ (schedule_sms twilio_messenger "plivo" "+15551230000" "hi" 50 100).2
     = twilio_messenger.
Proof.
  assert (Hg : gateways twilio_messenger !! "plivo" = None) by reflexivity.
  split; [exact Hg|].
  destruct (unregistered_gateway_is_refused net_balance string sample_float
              twilio_messenger "plivo" "+15551230000" "hi" "SM0001" 50 100 Hg)
    as (Hs & _ & Hb).
  rewrite Hs, Hb. split; reflexivity.
Defined.

Lemma update_message_status_unknown_key_witness :
  row_with_id (messages two_pending) 7 = None
  /\ update_message_status two_pending 7 "sent" JNull 20 = Return two_pending
  /\ forall d',
       update_message_status two_pending 7 "sent" (JStr "SM0001") 20
         = Return d' -> d' = two_pending.
Proof.
  assert (H : row_with_id (messages two_pending) 7 = None) by reflexivity.
  split; [exact H|]. split.
  - apply (update_message_status_unknown_key two_pending 7 "sent" JNull 20 H).
    + lia.
    + reflexivity.
  - apply (update_message_status_unknown_key two_pending 7 "sent"
             (JStr "SM0001") 20 H).
Defined.




Lemma get_delivery_status_status_code_witness :
  net_accepting (length (@nil request)) = Reply reply_created
  /\ (get_delivery_status net_accepting sample_twilio "SM0001" []).1
     = Raise (Exception "Twilio API error: created")
  /\ (url <$> (get_delivery_status net_accepting sample_twilio "SM0001" []).2)
     = ["https://api.twilio.com/2010-04-01/Accounts/AC0001/Messages/SM0001.json"].
Proof.
  assert (H : net_accepting (length (@nil request)) = Reply reply_created)
    by reflexivity.
  split; [exact H|].
  destruct (get_delivery_status_status_code net_accepting [] reply_created
              "SM0001" H) as [Htwilio _].
  destruct (Htwilio "AC0001" "secret" (Some "+15550001111"))
    as (_ & Hother & Hwire).
  split.
  - apply Hother. discriminate.
  - unfold sample_twilio. rewrite Hwire. reflexivity.
Defined.

Lemma get_balance_status_code_witness :
  net_balance (length (@nil request)) = Reply reply_balance
  /\ (get_balance net_balance string sample_float sample_twilio []).1
     = Return "12.50"%string
  /\ (get_balance net_balance string sample_float sample_plivo []).1
     = Raise (KeyError "cash_credits").
Proof.
  assert (H : net_balance (length (@nil request)) = Reply reply_balance)
    by reflexivity.
  split; [exact H|].
  destruct (get_balance_status_code net_balance string sample_float []
              reply_balance H) as [Htwilio Hplivo].
  split.
  - destruct (Htwilio "AC0001" "secret" (Some "+15550001111")) as [_ H200].
    destruct (H200 eq_refl) as [_ Hfields].
    apply (Hfields [("balance", JStr "12.50"); ("currency", JStr "USD")]).
    reflexivity.
  - destruct (Hplivo "MA0001" "secret" None) as [_ H200].
    destruct (H200 eq_refl) as [_ Hfields].
    apply (Hfields [("balance", JStr "12.50"); ("currency", JStr "USD")]).
    reflexivity.
Defined.

Lemma add_contact_phone_stays_taken_witness :
  let t := add_contacts no_contacts [alice] in
  In "+15551230000"%string (map contact_phone (contacts t))
  /\ (add_contact (add_contacts t [bob]) "Alice again" "+15551230000" None
        None 7 true).1
     = Raise (ValueError "Contact with phone +15551230000 already exists")
  /\ contact_name
       <$> contacts
             (add_contact (add_contacts t [bob]) "Alice again" "+15551230000"
                None None 7 true).2
     = ["Alice"; "Bob"]%string.
Proof.
  intros t.
  assert (H : In "+15551230000"%string (map contact_phone (contacts t)))
    by (left; reflexivity).
  split; [exact H|].
  destruct (add_contact_phone_stays_taken t [bob] "Alice again"
              "+15551230000" None None 7 true H) as [Hraise Hrows].
  split; [exact Hraise|]. rewrite Hrows. reflexivity.
Defined.

Lemma add_contact_then_get_contacts_witness :
  let t := add_contacts no_contacts [bob] in
  ~ In "+15551230000"%string (map contact_phone (contacts t))
  /\ exists t',
       add_contact t "Alice" "+15551230000" None (Some "friends"%string) 7
         true = (Return 2, t')
       /\ contact_name <$> get_contacts t' None = ["Bob"; "Alice"]%string
       /\ contact_name <$> get_contacts t' (Some "friends"%string)
          = ["Alice"%string]
       /\ get_contacts t' (Some "family"%string) = [].
Proof.
  intros t.
  assert (H : ~ In "+15551230000"%string (map contact_phone (contacts t)))
    by (intros [H|[]]; discriminate).
  split; [exact H|].
  destruct (add_contact_then_get_contacts t "Alice" "+15551230000" None
              (Some "friends"%string) 7 true H) as (t' & Hrun & Hall & Hgroup).
  exists t'. split; [exact Hrun|]. split; [rewrite Hall; reflexivity|].
  split.
  - rewrite (Hgroup "friends"%string) by discriminate. reflexivity.
  - rewrite (Hgroup "family"%string) by discriminate. reflexivity.
Defined.

Lemma send_immediate_sms_accepted_without_id_witness :
  let payload := JObj [("status", JStr "queued")] in
  wf_db (db twilio_messenger)
  /\ gateways twilio_messenger !! "twilio" = Some sample_twilio
  /\ (send_sms net_without_id sample_twilio "+15551230000" "hi"
        (wire twilio_messenger)).1 = Return payload
  /\ gateway_message_id_of payload = Return JNull
  /\ exists self',
       send_immediate_sms net_without_id twilio_messenger "twilio"
         "+15551230000" "hi" 100 = (Return payload, self')
       /\ status <$> messages (db self') = ["sent"]
       /\ message_id <$> messages (db self') = [None]
       /\ sent_at <$> messages (db self') = [None]
       /\ log_status <$> logs (db self') = ["sent"].
Proof.
  intros payload.
  assert (Hwf : wf_db (db twilio_messenger)).
  { unfold wf_db. vm_compute. repeat split; try constructor. discriminate. }
  assert (Hg : gateways twilio_messenger !! "twilio" = Some sample_twilio)
    by reflexivity.
  assert (Hs : (send_sms net_without_id sample_twilio "+15551230000" "hi"
                  (wire twilio_messenger)).1 = Return payload)
    by reflexivity.
  assert (Hid : gateway_message_id_of payload = Return JNull) by reflexivity.
  repeat (split; [assumption|]).
  destruct (send_immediate_sms_accepted_without_id net_without_id
              twilio_messenger "twilio" "+15551230000" "hi" 100 sample_twilio
              payload JNull Hwf Hg Hs Hid eq_refl)
    as (self' & Hrun & Hrows & Hlogs).
  exists self'. rewrite Hrows, Hlogs. repeat split. exact Hrun.
Defined.

(** What [sqlite3] makes of the values a reply can hold as identifier. *)
Lemma bind_text_examples :
  bind_text (JStr "SM0001") = Return (Some "SM0001"%string)
  /\ bind_text (JNum 42) = Return (Some "42"%string)
  /\ bind_text (JBool true) = Return (Some "1"%string)
  /\ bind_text (JFloat PrimFloat.nan "NaN") = Return None
  /\ truthy (JFloat PrimFloat.nan "NaN") = true
  /\ truthy (JFloat PrimFloat.zero "0.0") = false
  /\ bind_text (JFloat PrimFloat.infinity "Inf") = Return (Some "Inf"%string)
  /\ bind_text (JStr lone_surrogate) = Raise (UnicodeEncodeError lone_surrogate)
  /\ bind_text (JNum (2 ^ 63))
     = Raise (OverflowError
                "Python int too large to convert to SQLite INTEGER")
  /\ bind_text (JObj [("id", JNum 1)])
     = Raise (ProgrammingError
                "Error binding parameter 2: type 'dict' is not supported").
Proof. repeat split. Qed.
